(** * Item-code decoding and row import of the cabinet import scripts

  A shallow embedding of [database/scripts/import_cabinet_csv.py] (class
  [CabinetCSVImporter]: [parse_item_code], [normalize_type_code],
  [infer_door_drawer_count], [clean_price], [get_or_create_product],
  [get_or_create_variant], [create_pricing_records], [process_row] and the
  row loop of [import_csv_file]) and of the width extraction and
  [clean_price] of [database/scripts/simple_import.py].

  Strings are [String.string]: sequences of 8-bit code points.  On that
  range Python's [\d] is exactly [0-9] and [[A-Z]] is the ASCII upper-case
  letters.  Python integers are unbounded and are modelled by [Z].  The
  database is a state machine the scripts do not control: its replies are
  parameters of the methods that talk to it. *)

From Stdlib Require Import ZArith Bool List Ascii String Lia.
Import ListNotations.

Local Open Scope string_scope.
Local Open Scope Z_scope.

(** ** Python string primitives *)

Module PyStr.

(** [s[:n]] *)
Fixpoint take (n : nat) (s : string) : string :=
  match n, s with
  | S n', String c s' => String c (take n' s')
  | _, _ => EmptyString
  end.

(** [s[n:]] *)
Fixpoint drop (n : nat) (s : string) : string :=
  match n, s with
  | S n', String _ s' => drop n' s'
  | _, _ => s
  end.

(** [s.startswith(p)] *)
Fixpoint startswith (p s : string) : bool :=
  match p, s with
  | EmptyString, _ => true
  | String a p', String b s' => Ascii.eqb a b && startswith p' s'
  | String _ _, EmptyString => false
  end.

(** [s.endswith(String c "")] for a one-character suffix. *)
Fixpoint endswith_char (c : ascii) (s : string) : bool :=
  match s with
  | EmptyString => false
  | String a EmptyString => Ascii.eqb a c
  | String _ s' => endswith_char c s'
  end.

(** [s[:-1]] *)
Fixpoint drop_last (s : string) : string :=
  match s with
  | EmptyString => EmptyString
  | String _ EmptyString => EmptyString
  | String a s' => String a (drop_last s')
  end.

(** [p in s] for a non-empty needle [p]. *)
Fixpoint contains (p s : string) : bool :=
  startswith p s ||
  match s with
  | EmptyString => false
  | String _ s' => contains p s'
  end.

(** [s.replace(p, "")]: the occurrences of [p] are removed from left to
    right, without overlap.  [fuel] bounds the number of scan steps; every
    step consumes at least one character of a non-empty needle. *)
Fixpoint remove_fuel (fuel : nat) (p s : string) : string :=
  match fuel with
  | O => s
  | S fuel' =>
      match s with
      | EmptyString => EmptyString
      | String a s' =>
          if startswith p s
          then remove_fuel fuel' p (drop (String.length p) s)
          else String a (remove_fuel fuel' p s')
      end
  end.

Definition remove (p s : string) : string :=
  remove_fuel (String.length s) p s.

Definition is_upper (c : ascii) : bool :=
  let n := nat_of_ascii c in (65 <=? n)%nat && (n <=? 90)%nat.

Definition is_digit (c : ascii) : bool :=
  let n := nat_of_ascii c in (48 <=? n)%nat && (n <=? 57)%nat.

(** [int(s)] on a string of decimal digits. *)
Definition int_acc (acc : Z) (s : string) : Z :=
  (fix go (s : string) (acc : Z) : Z :=
     match s with
     | EmptyString => acc
     | String c s' => go s' (10 * acc + (Z.of_nat (nat_of_ascii c) - 48))
     end) s acc.

Definition int (s : string) : Z := int_acc 0 s.

(** Membership of an optional string in a list literal
    ([x in ['a', 'b']], where [x] may be [None]). *)
Definition in_list (x : option string) (l : list string) : bool :=
  match x with
  | None => false
  | Some v => existsb (String.eqb v) l
  end.

(** [d.get(k)] on a dict with string keys, kept as an association list. *)
Fixpoint dict_get {V : Type} (d : list (string * V)) (k : string) : option V :=
  match d with
  | [] => None
  | (k', v) :: d' => if String.eqb k k' then Some v else dict_get d' k
  end.

End PyStr.

(** ** The fragment of Python's [re] the scripts use

  Every pattern of the scripts is a sequence of greedily quantified
  character classes, some of them enclosed in (unnested, unquantified)
  capturing groups, optionally closed by [$].  The matcher below is the
  backtracking matcher of [re] for that fragment: a quantifier first takes
  as many characters as it can and gives them back one at a time while the
  remainder of the pattern fails. *)

Module Re.
Import PyStr.

Inductive cclass : Type :=
| Upper                (* [A-Z] *)
| Digit                (* \d    *)
| Chr (c : ascii).     (* a literal character *)

Definition in_class (k : cclass) (c : ascii) : bool :=
  match k with
  | Upper => is_upper c
  | Digit => is_digit c
  | Chr a => Ascii.eqb a c
  end.

(** Every character of [s] is in class [k]. *)
Fixpoint all_in (k : cclass) (s : string) : bool :=
  match s with
  | EmptyString => true
  | String c s' => in_class k c && all_in k s'
  end.

(** [r] does not go on with a character of class [k]. *)
Definition stops (k : cclass) (r : string) : Prop :=
  match r with
  | EmptyString => True
  | String c _ => in_class k c = false
  end.

(** [k{lo,hi}]; [hi = None] is "no upper bound". *)
Record rep : Type := Rep { r_class : cclass; r_lo : nat; r_hi : option nat }.

Definition plus (k : cclass) : rep := Rep k 1%nat None.            (* k+   *)
Definition star (k : cclass) : rep := Rep k 0%nat None.            (* k*   *)
Definition times (n : nat) (k : cclass) : rep := Rep k n (Some n). (* k{n} *)
Definition one (k : cclass) : rep := Rep k 1%nat (Some 1%nat).         (* k    *)

Inductive piece : Type :=
| Group (body : list rep)     (* ( ... ) *)
| Bare (body : list rep).

Record regex : Type := Regex { pieces : list piece; dollar : bool }.

(** Number of leading characters of [s] in class [k], capped by [hi]. *)
Fixpoint run (k : cclass) (hi : option nat) (s : string) : nat :=
  match hi, s with
  | Some O, _ => O
  | _, EmptyString => O
  | _, String c s' =>
      if in_class k c
      then S (run k (option_map Nat.pred hi) s')
      else O
  end.

Section Backtrack.
Context {A : Type}.

(** Try the continuation with [n] characters, then [n-1], ... down to [lo]. *)
Fixpoint try_down (n lo : nat) (k : nat -> option A) : option A :=
  match k n with
  | Some r => Some r
  | None =>
      match n with
      | O => None
      | S n' => if (lo <=? n')%nat then try_down n' lo k else None
      end
  end.

(** Match the sequence [rs] at the head of [s]; [got] is the text the
    sequence has consumed so far. *)
Fixpoint match_reps (rs : list rep) (s got : string)
         (k : string -> string -> option A) : option A :=
  match rs with
  | [] => k got s
  | r :: rs' =>
      let n := run (r_class r) (r_hi r) s in
      if (n <? r_lo r)%nat then None
      else try_down n (r_lo r)
             (fun j => match_reps rs' (drop j s) (got ++ take j s) k)
  end.
End Backtrack.

(** [$]: the end of the string, or just before a newline that ends it. *)
Definition at_end (s : string) : bool :=
  match s with
  | EmptyString => true
  | String c EmptyString => Ascii.eqb c "010"%char
  | _ => false
  end.

Fixpoint match_pieces (ps : list piece) (eos : bool) (s : string)
         (acc : list string) : option (list string) :=
  match ps with
  | [] => if eos then (if at_end s then Some (rev acc) else None)
          else Some (rev acc)
  | Bare b :: ps' =>
      match_reps b s "" (fun _ rest => match_pieces ps' eos rest acc)
  | Group b :: ps' =>
      match_reps b s "" (fun got rest => match_pieces ps' eos rest (got :: acc))
  end.

(** [re.match(r, s)]: the groups of the match at the start of [s]. *)
Definition re_match (r : regex) (s : string) : option (list string) :=
  match_pieces (pieces r) (dollar r) s [].

(** [re.search(r, s)]: the groups of the leftmost match. *)
Fixpoint re_search (r : regex) (s : string) : option (list string) :=
  match re_match r s with
  | Some g => Some g
  | None =>
      match s with
      | EmptyString => None
      | String _ s' => re_search r s'
      end
  end.

End Re.

(** ** [import_cabinet_csv.py]: class [CabinetCSVImporter] *)

Module CabinetCSVImporter.
Import PyStr Re.

(** [self.stats] *)
Record Stats : Type := mkStats {
  total_rows : Z;
  products_created : Z;
  variants_created : Z;
  pricing_records_created : Z;
  errors : Z;
  duplicates_skipped : Z
}.

(** The fields [__init__] sets on the importer; the caches are the dicts
    [load_reference_data] fills from the database. *)
Record Importer : Type := mkImporter {
  db_url : string;
  dry_run : bool;
  stats : Stats;
  color_options_cache : list (string * Z);
  box_materials_cache : list (string * Z);
  cabinet_types_cache : list (string * Z)
}.

(** The dict [parse_item_code] returns. *)
Record ParseResult : Type := mkResult {
  width : option Z;
  height : option Z;
  depth : option Z;
  type_code : option string;
  is_left_right : bool;
  door_count : Z;
  drawer_count : Z
}.

(** [type_mapping] of [normalize_type_code], in source order. *)
Definition type_mapping : list (string * string) :=
  [ ("BFD", "B"); ("BC", "BC"); ("BLS", "BLS"); ("W", "W");
    ("2DB", "2DB"); ("3DB", "3DB"); ("4DB", "4DB"); ("5DB", "5DB");
    ("PC", "PC"); ("V", "V"); ("VB", "VB"); ("VD", "VD");
    ("VDB", "VDB"); ("VSB", "VSB"); ("SB", "SB"); ("F", "F");
    ("PNL", "PNL"); ("D", "D"); ("MOC", "MOC"); ("TK", "TK");
    ("DWP", "DWP"); ("RP", "RP"); ("ADA", "ADA"); ("CF", "CF") ].

(** [type_mapping.get(type_code, 'B')] *)
Definition normalize_type_code (self : Importer) (tc : string) : string :=
  match dict_get type_mapping tc with
  | Some v => v
  | None => "B"
  end.

(** The pattern [(\d+)] that [infer_door_drawer_count] searches for. *)
Definition digits_re : regex := Regex [Group [plus Digit]] false.

(** Returns [(doors, drawers)]. *)
Definition infer_door_drawer_count (self : Importer)
           (tc : option string) (item_code : string) : Z * Z :=
  if in_list tc ["2DB"; "3DB"; "4DB"; "5DB"] then
    (0, match tc with Some t => int (take 1 t) | None => 0 end)
  else if in_list tc ["B"; "BFD"] then
    match re_search digits_re item_code with
    | Some groups =>
        let w := int (nth 0 groups "") in ((if w <? 24 then 1 else 2), 0)
    | None => (0, 0)
    end
  else if in_list tc ["W"] then (2, 0)
  else ((if negb (in_list tc ["F"; "PNL"; "TK"; "D"]) then 1 else 0), 0).

(** The [patterns] list of [parse_item_code], in source order (the regular
    expression of each entry is spelled with blanks between its pieces). *)
Definition patterns : list regex :=
  [ (* ^ ([A-Z]+) (\d+) ([A-Z]* ) $ *)
    Regex [Group [plus Upper]; Group [plus Digit]; Group [star Upper]] true;
    (* ^ ([A-Z]+) (\d{2}) (\d{2}) $ *)
    Regex [Group [plus Upper]; Group [times 2 Digit]; Group [times 2 Digit]] true;
    (* ^ (\d+[A-Z]+) (\d+) $ *)
    Regex [Group [plus Digit; plus Upper]; Group [plus Digit]] true;
    (* ^ ([A-Z]+) (\d+) ([A-Z]* ) $ *)
    Regex [Group [plus Upper]; Group [plus Digit]; Group [star Upper]] true ].

(** The orientation check at the head of [parse_item_code]: the flag and
    the item code the remainder of the function works on. *)
Definition strip_orientation (item_code : string) : bool * string :=
  if contains "-L/R" item_code then (true, remove "-L/R" item_code)
  else if endswith_char "L" item_code || endswith_char "R" item_code
       then (true, drop_last item_code)
       else (false, item_code).

(** The first pattern of [ps] that matches, with its groups
    (the [for pattern in patterns: ... break] loop). *)
Fixpoint first_match (ps : list regex) (item_code : string)
  : option (list string) :=
  match ps with
  | [] => None
  | p :: ps' =>
      match re_match p item_code with
      | Some groups => Some groups
      | None => first_match ps' item_code
      end
  end.

(** The body of the [if match:] block: the type token handed to
    [normalize_type_code] and the dimensions read off [groups]. *)
Definition type_token (groups : list string) : option string :=
  if (2 <=? List.length groups)%nat then nth_error groups 0 else None.

Definition dims (groups : list string) : option Z * option Z :=
  match groups with
  | _ :: g1 :: _ =>
      if (String.length g1 =? 4)%nat
      then (Some (int (take 2 g1)), Some (int (drop 2 g1)))
      else if (2 <=? String.length g1)%nat
           then (Some (int g1), None)
           else (None, None)
  | _ => (None, None)
  end.

(** [parse_item_code] from the [patterns] loop on: [lr] is the flag and
    [item_code] the code the orientation check has left. *)
Definition parse_stripped (self : Importer) (lr : bool) (item_code : string)
  : ParseResult :=
  let '(w, h, tc) :=
    match first_match patterns item_code with
    | Some groups =>
        let '(w, h) := dims groups in
        (* result['type_code'] stays None when len(groups) < 2, and
           normalize_type_code(None) is the default. *)
        (w, h, Some (match type_token groups with
                     | Some t => normalize_type_code self t
                     | None => "B"
                     end))
    | None => (None, None, None)
    end in
  let '(doors, drawers) := infer_door_drawer_count self tc item_code in
  mkResult w h None tc lr doors drawers.

Definition parse_item_code (self : Importer) (item_code : string)
  : ParseResult :=
  let '(lr, item_code) := strip_orientation item_code in
  parse_stripped self lr item_code.

(** The type lookup of [get_or_create_product]:
    [type_id = self.cabinet_types_cache.get(parsed_info['type_code'])],
    then [if not type_id: type_id = self.cabinet_types_cache.get('B')]. *)
Definition product_type_id (self : Importer) (parsed_info : ParseResult)
  : option Z :=
  let type_id :=
    match type_code parsed_info with
    | Some t => dict_get (cabinet_types_cache self) t
    | None => None
    end in
  match type_id with
  | Some id => if id =? 0 then dict_get (cabinet_types_cache self) "B" else Some id
  | None => dict_get (cabinet_types_cache self) "B"
  end.

(** [is_left_right] overwritten in a decoded record. *)
Definition set_is_left_right (b : bool) (r : ParseResult) : ParseResult :=
  mkResult (width r) (height r) (depth r) (type_code r) b
           (door_count r) (drawer_count r).

(** An importer as [__init__] leaves it. *)
Definition new_importer (url : string) (dry : bool) : Importer :=
  mkImporter url dry (mkStats 0 0 0 0 0 0) [] [] [].

End CabinetCSVImporter.

(** ** [simple_import.py]: the width written for a row by [main] *)

Module SimpleImport.
Import PyStr Re.

(** The width [main] reads off the item code before its range check;
    [24] is the default it starts from. *)
Definition extracted_width (item_code : string) : Z :=
  (* ^ [A-Z]+ \d{2} [A-Z]* *)
  match re_match (Regex [Bare [plus Upper; times 2 Digit; star Upper]] false)
                 item_code with
  | Some _ =>
      (* [A-Z]+ (\d{2}) *)
      match re_search (Regex [Bare [plus Upper]; Group [times 2 Digit]] false)
                      item_code with
      | Some groups => int (nth 0 groups "")
      | None => 24
      end
  | None =>
      (* ^ W \d{4} *)
      match re_match (Regex [Bare [one (Chr "W"); times 4 Digit]] false)
                     item_code with
      | Some _ =>
          (* W (\d{2}) \d{2} *)
          match re_search (Regex [Bare [one (Chr "W")]; Group [times 2 Digit];
                                  Bare [times 2 Digit]] false) item_code with
          | Some groups => int (nth 0 groups "")
          | None => 24
          end
      | None =>
          (* ^ \d+ [A-Z]+ \d+ *)
          match re_match (Regex [Bare [plus Digit; plus Upper; plus Digit]] false)
                         item_code with
          | Some _ =>
              (* \d+ [A-Z]+ (\d+) *)
              match re_search (Regex [Bare [plus Digit; plus Upper];
                                      Group [plus Digit]] false) item_code with
              | Some groups => int (nth 0 groups "")
              | None => 24
              end
          | None => 24
          end
      end
  end.

(** [if width < 6 or width > 96: width = 24] *)
Definition check_width (width : Z) : Z :=
  if (width <? 6) || (width >? 96) then 24 else width.

(** The width passed to the [INSERT] of the product. *)
Definition import_width (item_code : string) : Z :=
  check_width (extracted_width item_code).

End SimpleImport.

(** ** The rules of the specification, as it words them *)

Module Spec.
Import PyStr Re CabinetCSVImporter.

(** The character before the last one is a digit. *)
Fixpoint digit_before_last (s : string) : bool :=
  match s with
  | String a ((String _ EmptyString) as s') => is_digit a
  | String _ s' => digit_before_last s'
  | EmptyString => false
  end.

(** The orientation rule of section 4.1: (a) the marker [-L/R]; (b) a
    trailing [L] or [R] that follows a digit, when the code without it still
    resolves ([resolvable]); (c) otherwise no orientation. *)
Definition orientation_rule (resolvable : string -> bool) (code : string)
  : bool * string :=
  if contains "-L/R" code then (true, remove "-L/R" code)
  else if (endswith_char "L" code || endswith_char "R" code)
          && digit_before_last code && resolvable (drop_last code)
       then (true, drop_last code)
       else (false, code).

(** Declarative readings: the marker [-L/R] occurs in [c]; [c] ends in the character [x]. *)
Definition has_marker (c : string) : Prop := exists a b, c = a ++ "-L/R" ++ b.
Definition ends_in (x : ascii) (c : string) : Prop := exists p, c = p ++ String x "".

(** No structural pattern of [parse_item_code] matches [code]. *)
Definition unmatched (code : string) : Prop :=
  Forall (fun p => re_match p code = None) patterns.

(** The width bounds of the data model. *)
Definition width_in_range (w : Z) : Prop := 6 <= w <= 96.

End Spec.

(** ** Price strings: [clean_price] of both scripts *)

Module PriceText.
Import PyStr.

(** [str.isspace] on 8-bit code points: tab to carriage return, the four
    separators 28 to 31, the blank, NEL (133) and the no-break space (160). *)
Definition is_space (c : ascii) : bool :=
  let n := nat_of_ascii c in
  ((9 <=? n) && (n <=? 13) || (28 <=? n) && (n <=? 32)
   || (n =? 133) || (n =? 160))%nat.

Fixpoint lstrip (s : string) : string :=
  match s with
  | String c s' => if is_space c then lstrip s' else s
  | EmptyString => EmptyString
  end.

Fixpoint rstrip (s : string) : string :=
  match s with
  | EmptyString => EmptyString
  | String c s' =>
      match rstrip s' with
      | EmptyString => if is_space c then EmptyString else String c EmptyString
      | r => String c r
      end
  end.

(** [s.strip()] *)
Definition strip (s : string) : string := lstrip (rstrip s).

(** The characters kept by the pattern "[^\d.,]" of [re.sub]. *)
Definition price_char (c : ascii) : bool :=
  is_digit c || Ascii.eqb c "." || Ascii.eqb c ",".

Fixpoint filter_chars (f : ascii -> bool) (s : string) : string :=
  match s with
  | EmptyString => EmptyString
  | String c s' =>
      if f c then String c (filter_chars f s') else filter_chars f s'
  end.

(** [re.sub(r'[^\d.,]', '', s)] *)
Definition re_sub_price (s : string) : string := filter_chars price_char s.

(** [c in s] for a character [c]. *)
Fixpoint has_char (c : ascii) (s : string) : bool :=
  match s with
  | EmptyString => false
  | String a s' => Ascii.eqb a c || has_char c s'
  end.

(** [s.count(c)] *)
Fixpoint count_char (c : ascii) (s : string) : nat :=
  match s with
  | EmptyString => O
  | String a s' => ((if Ascii.eqb a c then 1 else 0) + count_char c s')%nat
  end.

(** [s.replace(c, '')] *)
Definition remove_char (c : ascii) (s : string) : string :=
  filter_chars (fun a => negb (Ascii.eqb a c)) s.

(** [s.replace(c, d)] *)
Fixpoint replace_char (c d : ascii) (s : string) : string :=
  match s with
  | EmptyString => EmptyString
  | String a s' =>
      String (if Ascii.eqb a c then d else a) (replace_char c d s')
  end.

(** [s.split(c)[1]] when [c] occurs in [s]: the text between the first
    occurrence of [c] and the next one (or the end). *)
Fixpoint until_char (c : ascii) (s : string) : string :=
  match s with
  | EmptyString => EmptyString
  | String a s' => if Ascii.eqb a c then EmptyString else String a (until_char c s')
  end.

Fixpoint second_part (c : ascii) (s : string) : string :=
  match s with
  | EmptyString => EmptyString
  | String a s' => if Ascii.eqb a c then until_char c s' else second_part c s'
  end.

(** A [Decimal] that is not negative: [coefficient * 10 ^ exponent]. *)
Record Decimal : Type := mkDecimal { coefficient : Z; exponent : Z }.

(** The leading digits of [s] and what follows them. *)
Fixpoint span_digits (s : string) : string * string :=
  match s with
  | String c s' =>
      if is_digit c
      then let '(d, r) := span_digits s' in (String c d, r)
      else (EmptyString, s)
  | EmptyString => (EmptyString, EmptyString)
  end.

(** [Decimal(s)] on a string of digits, dots and commas: digits with at
    most one dot among them, and at least one digit; [None] stands for the
    [InvalidOperation] both scripts catch. *)
Definition decimal_of_string (s : string) : option Decimal :=
  let '(i, r) := span_digits s in
  match r with
  | EmptyString =>
      if String.eqb i "" then None else Some (mkDecimal (int i) 0)
  | String c r' =>
      if Ascii.eqb c "."
      then let '(f, r'') := span_digits r' in
           if String.eqb r'' "" && negb (String.eqb (i ++ f) "")
           then Some (mkDecimal (int (i ++ f)) (- Z.of_nat (String.length f)))
           else None
      else None
  end.

(** Every character of [s] satisfies [f]. *)
Fixpoint forall_chars (f : ascii -> bool) (s : string) : bool :=
  match s with
  | EmptyString => true
  | String c s' => f c && forall_chars f s'
  end.

(** The truth value of a price ([if price:]): a zero is false. *)
Definition truthy (p : option Decimal) : bool :=
  match p with
  | Some d => negb (coefficient d =? 0)
  | None => false
  end.

End PriceText.

Module ImporterPrices.
Import PyStr PriceText CabinetCSVImporter.

(** [CabinetCSVImporter.clean_price]; [price_str] is [None] for a missing
    cell. *)
Definition clean_price (self : Importer) (price_str : option string)
  : option Decimal :=
  match price_str with
  | None => None
  | Some p =>
      if String.eqb p "" || String.eqb (strip p) "" then None
      else
        let cleaned := re_sub_price (strip p) in
        if String.eqb cleaned "" then None
        else
          let cleaned :=
            if has_char "," cleaned && has_char "." cleaned
            then remove_char "," cleaned
            else if has_char "," cleaned && (count_char "," cleaned =? 1)%nat
                 then if (String.length (second_part "," cleaned) <=? 2)%nat
                      then replace_char "," "." cleaned
                      else remove_char "," cleaned
                 else cleaned in
          decimal_of_string cleaned
  end.

End ImporterPrices.

Module SimplePrices.
Import PyStr PriceText.

(** [clean_price] of [simple_import.py]. *)
Definition clean_price (price_str : option string) : option Decimal :=
  match price_str with
  | None => None
  | Some p =>
      if String.eqb p "" || String.eqb (strip p) "" then None
      else
        let cleaned := re_sub_price (strip p) in
        if String.eqb cleaned "" then None
        else decimal_of_string (remove_char "," cleaned)
  end.

End SimplePrices.

(** ** [process_row] and the methods it calls

    The cursor is a state machine the importer does not control: [query]
    takes the state of the database and a statement and gives the next
    state and a reply ([cur.execute] followed by [cur.fetchone] where the
    method calls it).  Every statement executed is appended to a trace.
    Logging is left out.  [upper] is [str.upper]. *)

Module ImporterRows.
Import PyStr PriceText CabinetCSVImporter.

(** A value a row of the database can hold, with its truth value. *)
Inductive Value : Type :=
| VNone
| VInt (z : Z)
| VStr (s : string).

Definition is_true (v : Value) : bool :=
  match v with
  | VNone => false
  | VInt z => negb (z =? 0)
  | VStr s => negb (String.eqb s "")
  end.

Inductive Stmt : Type :=
| SelectProduct (item_code : string)
| InsertProduct (item_code name : string) (type_id : option Z)
                (description : string) (width height depth : option Z)
                (door_count drawer_count : Z) (is_left_right : bool)
| SelectVariant (product_id : Value) (color_option_id : Z)
| InsertVariant (product_id : Value) (color_option_id : Z) (sku : string)
| InsertPricing (variant_id : Value) (material_id : Z) (price : Decimal).

Definition is_insert (s : Stmt) : bool :=
  match s with
  | SelectProduct _ | SelectVariant _ _ => false
  | _ => true
  end.

(** What the cursor answers: an exception, no row, or the first column of
    the row fetched. *)
Inductive Reply : Type :=
| Raised
| NoRow
| Row (v : Value).

(** A row of [csv.DictReader]: a key is absent ([None]), or present with a
    text or with [None] (a short line). *)
Definition CsvRow : Type := string -> option (option string).

(** [material_mapping] of [create_pricing_records], in source order. *)
Definition material_mapping : list (string * string) :=
  [ ("Price with ParticleBoard Box", "particleboard");
    ("Price with Plywood Box", "plywood");
    ("UV Birch Plywood", "uv_birch");
    ("White Plywood", "white_plywood") ].

(** The price columns [process_row] reads, in source order. *)
Definition price_columns : list string :=
  [ "Price with ParticleBoard Box"; "Price with Plywood Box";
    "UV Birch Plywood"; "White Plywood" ].

Definition set_stats (self : Importer) (st : Stats) : Importer :=
  mkImporter (db_url self) (dry_run self) st (color_options_cache self)
             (box_materials_cache self) (cabinet_types_cache self).

Section Cursor.

Variable DB : Type.
Variable query : DB -> Stmt -> DB * Reply.
Variable upper : string -> string.

Record World : Type := mkWorld {
  w_self : Importer;
  w_db : DB;
  w_trace : list Stmt
}.

(** A method body: it returns a value or lets an exception through
    ([None]), and leaves a world behind in both cases. *)
Definition M (A : Type) : Type := World -> option A * World.

Definition ret {A : Type} (a : A) : M A := fun w => (Some a, w).

Definition raise {A : Type} : M A := fun w => (None, w).

Definition bind {A B : Type} (m : M A) (f : A -> M B) : M B :=
  fun w => match m w with
           | (Some a, w') => f a w'
           | (None, w') => (None, w')
           end.

Notation "x <- m ;; f" := (bind m (fun x => f))
  (at level 61, m at next level, right associativity).

Definition get_self : M Importer := fun w => (Some (w_self w), w).

Definition execute (s : Stmt) : M Reply :=
  fun w => let '(db', r) := query (w_db w) s in
           (Some r, mkWorld (w_self w) db' (w_trace w ++ [s])).

(** [self.stats[key] += 1] for the four keys the methods touch. *)
Definition bump (f : Stats -> Stats) : M unit :=
  fun w => (Some tt,
            mkWorld (set_stats (w_self w) (f (stats (w_self w))))
                    (w_db w) (w_trace w)).

Definition products_created_incr (st : Stats) : Stats :=
  mkStats (total_rows st) (products_created st + 1) (variants_created st)
          (pricing_records_created st) (errors st) (duplicates_skipped st).

Definition variants_created_incr (st : Stats) : Stats :=
  mkStats (total_rows st) (products_created st) (variants_created st + 1)
          (pricing_records_created st) (errors st) (duplicates_skipped st).

Definition pricing_records_created_incr (st : Stats) : Stats :=
  mkStats (total_rows st) (products_created st) (variants_created st)
          (pricing_records_created st + 1) (errors st) (duplicates_skipped st).

Definition errors_incr (st : Stats) : Stats :=
  mkStats (total_rows st) (products_created st) (variants_created st)
          (pricing_records_created st) (errors st + 1) (duplicates_skipped st).

Definition get_or_create_product (item_code description : string)
           (parsed_info : ParseResult) : M Value :=
  r <- execute (SelectProduct item_code) ;;
  match r with
  | Raised => raise
  | Row v => ret v
  | NoRow =>
      self <- get_self ;;
      let type_id := product_type_id self parsed_info in
      if dry_run self then ret (VInt 999999)
      else
        r <- execute (InsertProduct item_code description type_id description
                        (width parsed_info) (height parsed_info)
                        (depth parsed_info) (door_count parsed_info)
                        (drawer_count parsed_info)
                        (is_left_right parsed_info)) ;;
        match r with
        | Row v => _ <- bump products_created_incr ;; ret v
        | _ => _ <- bump errors_incr ;; ret VNone
        end
  end.

Definition get_or_create_variant (product_id : Value) (color_option_id : Z)
           (item_code color_name : string) : M Value :=
  let sku := item_code ++ "-" ++ upper (replace_char " " "_" color_name) in
  r <- execute (SelectVariant product_id color_option_id) ;;
  match r with
  | Raised => raise
  | Row v => ret v
  | NoRow =>
      self <- get_self ;;
      if dry_run self
      then ret (VStr "00000000-0000-0000-0000-000000000000")
      else
        r <- execute (InsertVariant product_id color_option_id sku) ;;
        match r with
        | Row v => _ <- bump variants_created_incr ;; ret v
        | _ => _ <- bump errors_incr ;; ret VNone
        end
  end.

(** One turn of the loop of [create_pricing_records]. *)
Definition create_pricing_record (variant_id : Value)
           (prices : list (string * Decimal)) (entry : string * string)
  : M unit :=
  let '(csv_col, db_code) := entry in
  match dict_get prices csv_col with
  | None => ret tt
  | Some price =>
      self <- get_self ;;
      match dict_get (box_materials_cache self) db_code with
      | None => ret tt
      | Some material_id =>
          if material_id =? 0 then ret tt
          else if dry_run self then ret tt
          else
            r <- execute (InsertPricing variant_id material_id price) ;;
            match r with
            | Raised => bump errors_incr
            | _ => bump pricing_records_created_incr
            end
      end
  end.

Fixpoint for_each {A : Type} (f : A -> M unit) (l : list A) : M unit :=
  match l with
  | [] => ret tt
  | a :: l' => _ <- f a ;; for_each f l'
  end.

Definition create_pricing_records (variant_id : Value)
           (prices : list (string * Decimal)) : M unit :=
  for_each (create_pricing_record variant_id prices) material_mapping.

(** [row.get(key, '').strip()]: an exception on a [None] cell. *)
Definition cell (row : CsvRow) (key : string) : M string :=
  match row key with
  | None => ret (strip "")
  | Some None => raise
  | Some (Some v) => ret (strip v)
  end.

(** The [prices] dict [process_row] builds. *)
Fixpoint read_prices (self : Importer) (row : CsvRow) (cols : list string)
  : list (string * Decimal) :=
  match cols with
  | [] => []
  | col :: cols' =>
      match row col with
      | None => read_prices self row cols'
      | Some text =>
          match ImporterPrices.clean_price self text with
          | Some price =>
              if truthy (Some price)
              then (col, price) :: read_prices self row cols'
              else read_prices self row cols'
          | None => read_prices self row cols'
          end
      end
  end.

Definition process_row (row : CsvRow) : M unit :=
  color_option <- cell row "Color Option" ;;
  item_code <- cell row "Item Code" ;;
  description <- cell row "Description" ;;
  if String.eqb item_code "" || String.eqb color_option "" then ret tt
  else
    self <- get_self ;;
    match dict_get (color_options_cache self) color_option with
    | None => ret tt
    | Some color_option_id =>
        if color_option_id =? 0 then ret tt
        else
          let parsed_info := parse_item_code self item_code in
          product_id <- get_or_create_product item_code description
                                              parsed_info ;;
          if negb (is_true product_id) then ret tt
          else
            variant_id <- get_or_create_variant product_id color_option_id
                                                item_code color_option ;;
            if negb (is_true variant_id) then ret tt
            else
              self <- get_self ;;
              match read_prices self row price_columns with
              | [] => ret tt
              | prices => create_pricing_records variant_id prices
              end
    end.

End Cursor.

(** The statistics that count INSERT statements. *)
Definition counted (st : Stats) : Z :=
  products_created st + variants_created st
  + pricing_records_created st + errors st.

Definition inserts (tr : list Stmt) : Z :=
  Z.of_nat (List.length (filter is_insert tr)).

(** What a statement of [process_row] may be, for an importer [self]: no
    INSERT in a dry run; a product only with the decode of its item code;
    a price only when it is positive and for a material of the cache. *)
Definition allowed (self : Importer) (s : Stmt) : Prop :=
  (dry_run self = true -> is_insert s = false)
  /\ match s with
     | InsertProduct item_code name type_id description w h d doors drawers lr =>
         let r := parse_item_code self item_code in
         item_code <> "" /\ name = description
         /\ type_id = product_type_id self r
         /\ w = width r /\ h = height r /\ d = depth r
         /\ doors = door_count r /\ drawers = drawer_count r
         /\ lr = is_left_right r
     | InsertPricing _ material_id price =>
         0 < coefficient price /\ material_id <> 0
         /\ exists code, In code (map snd material_mapping)
                         /\ dict_get (box_materials_cache self) code
                            = Some material_id
     | _ => True
     end.

(** How [process_row] and the methods it calls change a world: only the
    statistics of the importer change, [total_rows] and
    [duplicates_skipped] stay, the other counters grow, statements are
    appended to the trace, all of them allowed, and each INSERT among them
    is counted once. *)
Record evolves {DB : Type} (w w' : World DB) : Prop := mkEvolves {
  ev_self : w_self DB w' = set_stats (w_self DB w) (stats (w_self DB w'));
  ev_rows : total_rows (stats (w_self DB w')) = total_rows (stats (w_self DB w))
            /\ duplicates_skipped (stats (w_self DB w'))
               = duplicates_skipped (stats (w_self DB w));
  ev_grow : products_created (stats (w_self DB w))
            <= products_created (stats (w_self DB w'))
            /\ variants_created (stats (w_self DB w))
               <= variants_created (stats (w_self DB w'))
            /\ pricing_records_created (stats (w_self DB w))
               <= pricing_records_created (stats (w_self DB w'))
            /\ errors (stats (w_self DB w)) <= errors (stats (w_self DB w'));
  ev_trace : exists tr, w_trace DB w' = (w_trace DB w ++ tr)%list
                        /\ Forall (allowed (w_self DB w)) tr
                        /\ counted (stats (w_self DB w'))
                           = counted (stats (w_self DB w)) + inserts tr
}.

(** The prices [process_row] hands over are positive. *)
Definition positive_prices (prices : list (string * Decimal)) : Prop :=
  forall col price, dict_get prices col = Some price -> 0 < coefficient price.

(** A database that holds nothing and accepts every INSERT, an importer
    with one colour, one material and the base type in its caches, and a
    row of the price list. *)
Definition empty_db (db : unit) (s : Stmt) : unit * Reply :=
  (db, match s with
       | SelectProduct _ | SelectVariant _ _ => NoRow
       | InsertProduct _ _ _ _ _ _ _ _ _ _ => Row (VInt 5)
       | InsertVariant _ _ _ => Row (VStr "v-5")
       | InsertPricing _ _ _ => NoRow
       end).

Definition sample_importer (dry : bool) : Importer :=
  mkImporter "" dry (mkStats 1 0 0 0 0 0)
             [("White", 1)] [("plywood", 7)] [("B", 3)].

Definition sample_row : CsvRow :=
  fun key =>
    if String.eqb key "Color Option" then Some (Some "White")
    else if String.eqb key "Item Code" then Some (Some " B24FD ")
    else if String.eqb key "Description" then Some (Some "Base full door")
    else if String.eqb key "Price with Plywood Box" then Some (Some "$100.00")
    else if String.eqb key "UV Birch Plywood" then Some (Some "0.00")
    else None.


(** A method body that evolves every world. *)
Definition steady {DB A : Type} (m : M DB A) : Prop :=
  forall w, evolves w (snd (m w)).

End ImporterRows.

(** ** The row loop of [import_csv_file]

    The loop over the rows the reader yields, with the commits and the
    rollbacks around it.  Opening the file and sniffing its dialect are left
    out.  The connection is the state machine of the cursor, extended with
    [commit] and [rollback]. *)

Module ImporterLoop.
Import PyStr PriceText CabinetCSVImporter ImporterRows.

Inductive Action : Type :=
| Exec (s : Stmt)     (* cur.execute *)
| Commit              (* self.conn.commit() *)
| Rollback.           (* self.conn.rollback() *)


Definition total_rows_incr (st : Stats) : Stats :=
  mkStats (total_rows st + 1) (products_created st) (variants_created st)
          (pricing_records_created st) (errors st) (duplicates_skipped st).

Section Connection.

Variable DB : Type.
Variable conn : DB -> Action -> DB * Reply.
Variable upper : string -> string.

Record Session : Type := mkSession {
  s_self : Importer;
  s_db : DB;
  s_trace : list Action
}.

Definition L (A : Type) : Type := Session -> option A * Session.

(** A method of the cursor, run on the connection. *)
Definition on_cursor {A : Type} (m : M DB A) : L A :=
  fun s =>
    let '(r, w) := m (mkWorld DB (s_self s) (s_db s) []) in
    (r, mkSession (w_self DB w) (w_db DB w)
                  (s_trace s ++ map Exec (w_trace DB w))).

Definition act (a : Action) : L unit :=
  fun s =>
    let '(db', r) := conn (s_db s) a in
    (match r with Raised => None | _ => Some tt end,
     mkSession (s_self s) db' (s_trace s ++ [a])).

Definition count (f : Stats -> Stats) : Session -> Session :=
  fun s => mkSession (set_stats (s_self s) (f (stats (s_self s))))
                     (s_db s) (s_trace s).

(** The [try] of the loop: the row, then a commit every 100 rows. *)
Definition row_body (row : CsvRow) (row_num : nat) : L unit :=
  fun s =>
    match on_cursor (process_row DB (fun db st => conn db (Exec st)) upper row)
                    s with
    | (Some _, s') =>
        if negb (dry_run (s_self s')) && (row_num mod 100 =? 0)%nat
        then act Commit s'
        else (Some tt, s')
    | (None, s') => (None, s')
    end.

(** One turn of the loop: the [except Exception] counts an error and rolls
    back; an exception of the rollback itself leaves the loop. *)
Definition import_row (row : CsvRow) (row_num : nat) : L unit :=
  fun s =>
    match row_body row row_num (count total_rows_incr s) with
    | (Some _, s') => (Some tt, s')
    | (None, s') =>
        let s'' := count errors_incr s' in
        if negb (dry_run (s_self s'')) then act Rollback s''
        else (Some tt, s'')
    end.

(** [for row_num, row in enumerate(reader, 1)] *)
Fixpoint import_rows (rows : list CsvRow) (row_num : nat) : L unit :=
  fun s =>
    match rows with
    | [] => (Some tt, s)
    | row :: rows' =>
        match import_row row row_num s with
        | (Some _, s') => import_rows rows' (S row_num) s'
        | (None, s') => (None, s')
        end
    end.

(** The loop, the final commit, and the outer [except]: a rollback, then
    the exception again. *)
Definition import_csv_rows (rows : list CsvRow) : L unit :=
  fun s =>
    let '(r, s') :=
      match import_rows rows 1 s with
      | (Some _, s') =>
          if negb (dry_run (s_self s')) then act Commit s' else (Some tt, s')
      | (None, s') => (None, s')
      end in
    match r with
    | Some _ => (Some tt, s')
    | None =>
        if negb (dry_run (s_self s'))
        then (None, snd (act Rollback s'))
        else (None, s')
    end.

End Connection.


End ImporterLoop.

(** ** What a match of the [re] fragment looks like *)

Module ReShape.
Import PyStr Re.

(** [t] is a text the sequence [rs] can consume: one block per quantified
    class, each within the bounds of its quantifier. *)
Inductive reps_match : list rep -> string -> Prop :=
| rm_nil : reps_match [] ""
| rm_cons (r : rep) (rs : list rep) (t u : string) :
    all_in (r_class r) t = true ->
    (r_lo r <= String.length t)%nat ->
    (forall h, r_hi r = Some h -> (String.length t <= h)%nat) ->
    reps_match rs u ->
    reps_match (r :: rs) (t ++ u).

(** [t] is a text the pieces [ps] can consume, with the groups [gs]. *)
Inductive pieces_match : list piece -> string -> list string -> Prop :=
| pm_nil : pieces_match [] "" []
| pm_bare (b : list rep) (ps : list piece) (t u : string) (gs : list string) :
    reps_match b t -> pieces_match ps u gs ->
    pieces_match (Bare b :: ps) (t ++ u) gs
| pm_group (b : list rep) (ps : list piece) (t u : string) (gs : list string) :
    reps_match b t -> pieces_match ps u gs ->
    pieces_match (Group b :: ps) (t ++ u) (t :: gs).

(** The patterns of [parse_item_code] that can decide a match: the first
    and the third. *)
Definition live_patterns : list regex :=
  [ nth 0 CabinetCSVImporter.patterns (Regex [] false);
    nth 2 CabinetCSVImporter.patterns (Regex [] false) ].

(** The codes [normalize_type_code] can return: the values of the type
    mapping. *)
Definition canonical_codes : list string :=
  map snd CabinetCSVImporter.type_mapping.

End ReShape.

(** ** Properties *)

Import PyStr Re CabinetCSVImporter SimpleImport Spec ReShape PriceText ImporterRows ImporterLoop.

(** *** Python string primitives against their declarative reading *)

Lemma startswith_app (p s : string) : startswith p (p ++ s) = true.
Proof.
  induction p as [|a p IH]; simpl; [reflexivity|].
  now rewrite Ascii.eqb_refl, IH.
Qed.

Lemma startswith_inv (p s : string) :
  startswith p s = true -> exists t, s = p ++ t.
Proof.
  revert s; induction p as [|a p IH]; intros s H.
  - now exists s.
  - destruct s as [|b s]; simpl in H; [discriminate|].
    apply andb_true_iff in H as [Hab Hp].
    apply Ascii.eqb_eq in Hab; subst b.
    destruct (IH _ Hp) as [t ->]. now exists t.
Qed.

Lemma contains_unfold (p s : string) :
  contains p s =
  startswith p s || match s with
                    | EmptyString => false
                    | String _ s' => contains p s'
                    end.
Proof. destruct s; reflexivity. Qed.

Lemma contains_iff (p s : string) :
  contains p s = true <-> exists a b, s = a ++ p ++ b.
Proof.
  split.
  - induction s as [|c s IH]; rewrite contains_unfold; intros H;
      apply orb_true_iff in H as [H|H]; try discriminate.
    + apply startswith_inv in H as [t Ht]. now exists "", t.
    + apply startswith_inv in H as [t Ht]. now exists "", t.
    + destruct (IH H) as (a & b & ->). now exists (String c a), b.
  - intros (a & b & ->). induction a as [|c a IH].
    + rewrite contains_unfold; simpl. now rewrite startswith_app.
    + rewrite contains_unfold. simpl (String c a ++ _).
      cbv iota. simpl in IH. rewrite IH. apply orb_true_r.
Qed.

Lemma endswith_char_iff (c : ascii) (s : string) :
  endswith_char c s = true <-> exists a, s = a ++ String c "".
Proof.
  split.
  - induction s as [|x s IH]; simpl; [discriminate|].
    destruct s as [|y s].
    + intros H; apply Ascii.eqb_eq in H; subst. now exists "".
    + intros H. destruct (IH H) as [a Ha]. exists (String x a).
      simpl. now rewrite Ha.
  - intros [a ->]. induction a as [|x a IH]; simpl.
    + apply Ascii.eqb_refl.
    + destruct a; simpl in *; exact IH.
Qed.

Lemma drop_last_snoc (a : string) (c : ascii) :
  drop_last (a ++ String c "") = a.
Proof.
  induction a as [|x a IH]; [reflexivity|].
  simpl. rewrite IH. now destruct a.
Qed.

Lemma no_marker_contains (c : string) :
  ~ has_marker c -> contains "-L/R" c = false.
Proof.
  intros H. destruct (contains "-L/R" c) eqn:E; [|reflexivity].
  exfalso. apply H. now apply contains_iff.
Qed.

Lemma not_ends_in (x : ascii) (c : string) :
  ~ ends_in x c -> endswith_char x c = false.
Proof.
  intros H. destruct (endswith_char x c) eqn:E; [|reflexivity].
  exfalso. apply H. now apply endswith_char_iff.
Qed.

(** *** The orientation check *)

(** C2, as the code has it.  The orientation check of [parse_item_code]
    applies its rules in order: a code that contains the marker [-L/R] has
    it removed ([str.replace]) and is flagged; otherwise a code that ends in [L]
    or [R] loses that letter and is flagged, whatever precedes the letter and
    whatever the remaining token is; otherwise the code is kept and not
    flagged.  Decoding [B18-L/R] gives the record of [B18] with the flag set. *)
Theorem C2_orientation_as_coded : forall (self : Importer) (c : string),
  (has_marker c -> strip_orientation c = (true, remove "-L/R" c))
  /\ (~ has_marker c ->
      forall p x, c = p ++ String x "" -> x = "L"%char \/ x = "R"%char ->
                  strip_orientation c = (true, p))
  /\ (~ has_marker c -> ~ ends_in "L" c -> ~ ends_in "R" c ->
      strip_orientation c = (false, c))
  /\ parse_item_code self c
     = parse_stripped self (fst (strip_orientation c)) (snd (strip_orientation c))
  /\ parse_item_code self "B18-L/R"
     = set_is_left_right true (parse_item_code self "B18").
Proof.
  intros self c. split; [|split; [|split; [|split]]].
  - intros H. unfold strip_orientation.
    apply contains_iff in H. now rewrite H.
  - intros Hm p x -> Hx. unfold strip_orientation.
    rewrite (no_marker_contains _ Hm), drop_last_snoc.
    assert (E : endswith_char "L" (p ++ String x "")
                || endswith_char "R" (p ++ String x "") = true).
    { apply orb_true_iff.
      destruct Hx as [-> | ->]; [left | right];
        apply endswith_char_iff; now exists p. }
    now rewrite E.
  - intros Hm HL HR. unfold strip_orientation.
    now rewrite (no_marker_contains _ Hm), (not_ends_in _ _ HL), (not_ends_in _ _ HR).
  - unfold parse_item_code. now destruct (strip_orientation c).
  - reflexivity.
Qed.

(** The rules of C2 at [B18-L/R], [BC39R] and [W3630]. *)
Lemma C2_orientation_witness :
  strip_orientation "B18-L/R" = (true, "B18")
  /\ strip_orientation "BC39R" = (true, "BC39")
  /\ strip_orientation "W3630" = (false, "W3630").
Proof.
  split; [|split].
  - apply (proj1 (C2_orientation_as_coded (new_importer "" false) "B18-L/R")).
    now exists "B18", "".
  - apply (proj1 (proj2 (C2_orientation_as_coded (new_importer "" false) "BC39R")))
      with (x := "R"%char).
    + intros H. apply contains_iff in H. discriminate H.
    + reflexivity.
    + now right.
  - apply (proj1 (proj2 (proj2
             (C2_orientation_as_coded (new_importer "" false) "W3630")))).
    + intros H. apply contains_iff in H. discriminate H.
    + intros H. apply endswith_char_iff in H. discriminate H.
    + intros H. apply endswith_char_iff in H. discriminate H.
Defined.

(** C2, as the specification words it, fails on the code: whatever the
    resolvability test is, the rule of section 4.1 keeps [BL] (the [L]
    follows a letter), while the code strips the [L] and flags the record. *)
Lemma C2_orientation_counterexample :
  strip_orientation "BL" = (true, "B")
  /\ ~ exists resolvable : string -> bool,
         forall c, strip_orientation c = Spec.orientation_rule resolvable c.
Proof.
  split; [reflexivity|].
  intros [resolvable H]. specialize (H "BL").
  vm_compute in H. discriminate H.
Qed.

(** *** The matcher on a block of one class *)

Lemma upper_not_digit (c : ascii) : is_upper c = true -> is_digit c = false.
Proof.
  unfold is_upper, is_digit. set (n := nat_of_ascii c).
  intros H. apply andb_true_iff in H as [H _]. apply Nat.leb_le in H.
  apply andb_false_iff. right. apply Nat.leb_gt. lia.
Qed.

Lemma digit_not_upper (c : ascii) : is_digit c = true -> is_upper c = false.
Proof.
  unfold is_upper, is_digit. set (n := nat_of_ascii c).
  intros H. apply andb_true_iff in H as [_ H]. apply Nat.leb_le in H.
  apply andb_false_iff. left. apply Nat.leb_gt. lia.
Qed.

Lemma nonempty_length (s : string) : s <> "" -> (1 <= String.length s)%nat.
Proof. destruct s; [congruence | simpl; lia]. Qed.

Lemma append_empty (s : string) : s ++ "" = s.
Proof. induction s as [|c s IH]; simpl; [reflexivity | now rewrite IH]. Qed.

Lemma digits_stop_upper (d r : string) :
  all_in Digit d = true -> d <> "" -> stops Upper (d ++ r).
Proof.
  destruct d as [|c d]; [congruence|]. simpl. intros H _.
  apply andb_true_iff in H as [H _]. now apply digit_not_upper.
Qed.

Lemma upper_stop_digit (x : string) : all_in Upper x = true -> stops Digit x.
Proof.
  destruct x as [|c x]; simpl; [trivial|]. intros H.
  apply andb_true_iff in H as [H _]. now apply upper_not_digit.
Qed.

Create HintDb blocks.
#[local] Hint Resolve nonempty_length digits_stop_upper upper_stop_digit : blocks.
#[local] Hint Extern 1 (stops _ EmptyString) => exact I : blocks.
#[local] Hint Extern 1 (_ <= _)%nat => simpl; lia : blocks.

Section Blocks.

(** A block [l] of class [k], followed by a text [r] that does not go on
    with that class. *)
Variable k : cclass.
Variables l r : string.
Hypothesis block : all_in k l = true.
Hypothesis stop : stops k r.

Lemma run_block : run k None (l ++ r) = String.length l.
Proof.
  induction l as [|c l' IH]; simpl.
  - destruct r as [|c r']; [reflexivity|]. unfold stops in stop.
    cbn [run]. now rewrite stop.
  - simpl in block. apply andb_true_iff in block as [Hc Hl].
    rewrite Hc. simpl. now rewrite IH.
Qed.

Lemma take_block : take (String.length l) (l ++ r) = l.
Proof.
  clear block stop. induction l as [|c l' IH]; simpl.
  - now destruct r.
  - now rewrite IH.
Qed.

Lemma drop_block : drop (String.length l) (l ++ r) = r.
Proof.
  clear block stop.
  induction l as [|c l' IH]; simpl; [reflexivity | exact IH].
Qed.

Lemma try_down_first {A : Type} (n lo : nat) (f : nat -> option A) (v : A) :
  f n = Some v -> try_down n lo f = Some v.
Proof. intros H. destruct n; simpl; now rewrite H. Qed.

(** A quantified class whose longest run lets the remainder of the pattern
    succeed takes that run. *)
Lemma match_block {A : Type} (lo : nat)
      (cont : string -> string -> option A) (v : A) :
  (lo <= String.length l)%nat ->
  cont l r = Some v ->
  match_reps [Rep k lo None] (l ++ r) "" cont = Some v.
Proof.
  intros Hlo Hv. simpl. rewrite run_block.
  destruct (String.length l <? lo)%nat eqn:E.
  - apply Nat.ltb_lt in E. lia.
  - apply try_down_first. now rewrite take_block, drop_block.
Qed.

End Blocks.

(** The first pattern on letters, digits and an optional letter suffix. *)
Lemma first_pattern_matches (l d x : string) :
  all_in Upper l = true -> l <> "" ->
  all_in Digit d = true -> d <> "" ->
  all_in Upper x = true ->
  first_match patterns (l ++ d ++ x) = Some [l; d; x].
Proof.
  intros Hl Nl Hd Nd Hx.
  unfold patterns, first_match, re_match. cbn [pieces dollar match_pieces].
  assert (S1 : stops Upper (d ++ x)) by auto with blocks.
  assert (S2 : stops Digit x) by auto with blocks.
  rewrite (match_block Upper l (d ++ x) Hl S1 1 _ [l; d; x]); auto with blocks.
  rewrite (match_block Digit d x Hd S2 1 _ [l; d; x]); auto with blocks.
  rewrite <- (append_empty x) at 1.
  rewrite (match_block Upper x "" Hx I 0 _ [l; d; x]); auto with blocks.
Qed.

(** [re.search] for a digit run skips the leading letters. *)
Lemma search_skips_letters (l r : string) :
  all_in Upper l = true ->
  re_search digits_re (l ++ r) = re_search digits_re r.
Proof.
  induction l as [|c l IH]; [reflexivity|].
  simpl all_in. intros H. apply andb_true_iff in H as [Hc Hl].
  apply upper_not_digit in Hc.
  change (String c l ++ r) with (String c (l ++ r)).
  cbn [re_search]. unfold re_match at 1, digits_re at 1.
  cbn [pieces dollar match_pieces match_reps plus r_class r_hi r_lo run].
  cbn [in_class]. rewrite Hc. cbn [Nat.ltb Nat.leb]. now apply IH.
Qed.

(** ... and finds the digits that follow them. *)
Lemma search_finds_digits (l d : string) :
  all_in Upper l = true -> all_in Digit d = true -> d <> "" ->
  re_search digits_re (l ++ d) = Some [d].
Proof.
  intros Hl Hd Nd. rewrite (search_skips_letters l d Hl).
  destruct d as [|c d]; [congruence|].
  cbn [re_search]. unfold re_match, digits_re.
  cbn [pieces dollar match_pieces].
  rewrite <- (append_empty (String c d)) at 1.
  rewrite (match_block Digit (String c d) "" Hd I 1 _ [String c d]);
    auto with blocks.
Qed.

(** *** Decoding of the golden cases *)

(** C3.  Decoding [W3630]: the first pattern matches with the groups [W],
    [3630] and the empty suffix; the four-digit token is split into width 36
    and height 30; the type is wall ([W]), with 2 doors, no drawer and no
    orientation. *)
Theorem C3_decode_W3630 : forall self : Importer,
  first_match patterns "W3630" = Some ["W"; "3630"; ""]
  /\ dims ["W"; "3630"; ""] = (Some (int "36"), Some (int "30"))
  /\ parse_item_code self "W3630"
     = mkResult (Some 36) (Some 30) None (Some "W") false 2 0.
Proof.
  intros self. split; [|split].
  - vm_compute. reflexivity.
  - vm_compute. reflexivity.
  - vm_compute. reflexivity.
Qed.

(** C4.  Decoding [2DB24]: the first two patterns fail and the third one
    (digits, letters, digits) matches with the groups [2DB] and [24]; the
    type is [2DB], the width 24, and the drawer count is the leading digit
    of the type, 2, with no door and no orientation. *)
Theorem C4_decode_2DB24 : forall self : Importer,
  map (fun p => re_match p "2DB24") patterns
  = [None; None; Some ["2DB"; "24"]; None]
  /\ snd (infer_door_drawer_count self (Some "2DB") "2DB24") = int (take 1 "2DB")
  /\ parse_item_code self "2DB24"
     = mkResult (Some 24) None None (Some "2DB") false 0 2.
Proof.
  intros self. split; [|split].
  - vm_compute. reflexivity.
  - vm_compute. reflexivity.
  - vm_compute. reflexivity.
Qed.

(** *** Type tokens *)

Lemma parse_stripped_type (self : Importer) (lr : bool) (code : string)
      (groups : list string) (t : string) :
  first_match patterns code = Some groups ->
  type_token groups = Some t ->
  type_code (parse_stripped self lr code) = Some (normalize_type_code self t).
Proof.
  intros M T. unfold parse_stripped. rewrite M, T.
  destruct (dims groups) as [w h].
  now destruct (infer_door_drawer_count self _ code).
Qed.

(** C6, as the code has it.  A type token that is not a key of the type
    mapping is normalized to the default [B], without an error, and so is
    the type of every decoded record whose matched token is not a key; in
    particular the type decoded from [ZQ99] is [B], and its record is the
    record of [BFD99], whose token is a key. *)
Theorem C6_unknown_token_as_coded :
  forall (self : Importer) (c : string) (groups : list string) (t : string),
  first_match patterns (snd (strip_orientation c)) = Some groups ->
  type_token groups = Some t ->
  dict_get type_mapping t = None ->
  normalize_type_code self t = "B"
  /\ type_code (parse_item_code self c) = Some "B"
  /\ type_code (parse_item_code self "ZQ99") = Some "B"
  /\ parse_item_code self "ZQ99" = parse_item_code self "BFD99".
Proof.
  intros self c groups t M T U.
  assert (N : normalize_type_code self t = "B").
  { unfold normalize_type_code. now rewrite U. }
  split; [exact N | split; [|split; reflexivity]].
  unfold parse_item_code.
  destruct (strip_orientation c) as [lr code]; simpl in M.
  rewrite (parse_stripped_type self lr code groups t M T). now rewrite N.
Qed.

(** C6 at [ZQ99]: the token [ZQ] is not a key of the mapping. *)
Lemma C6_unknown_token_witness :
  first_match patterns "ZQ99" = Some ["ZQ"; "99"; ""]
  /\ dict_get type_mapping "ZQ" = None
  /\ type_code (parse_item_code (new_importer "" false) "ZQ99") = Some "B".
Proof.
  split; [reflexivity | split; [reflexivity|]].
  apply (C6_unknown_token_as_coded (new_importer "" false) "ZQ99"
           ["ZQ"; "99"; ""] "ZQ");
    reflexivity.
Defined.

(** C6, as the specification words it, fails on the code: nothing marks the
    record of an unknown token.  [ZQ] is unknown and [BFD] is a key of the
    mapping, yet [ZQ99] and [BFD99] decode to the same record, so nothing
    read off the record tells them apart. *)
Lemma C6_unknown_token_counterexample :
  dict_get type_mapping "ZQ" = None
  /\ dict_get type_mapping "BFD" = Some "B"
  /\ ~ exists flagged : ParseResult -> bool,
         flagged (parse_item_code (new_importer "" false) "ZQ99") = true
         /\ flagged (parse_item_code (new_importer "" false) "BFD99") = false.
Proof.
  split; [reflexivity | split; [reflexivity|]].
  intros [flagged [H1 H2]].
  assert (E : parse_item_code (new_importer "" false) "ZQ99"
              = parse_item_code (new_importer "" false) "BFD99")
    by reflexivity.
  rewrite E in H1. rewrite H1 in H2. discriminate H2.
Qed.

(** C7 on the code.  For every code made of letters, two or three digits
    and an optional letter suffix, the first pattern matches, the digit
    group becomes the width, and the token handed to [normalize_type_code]
    is the first group alone: the suffix is not folded in.  For [B24FD] the
    token is [B], not [BFD]; the type decoded from [V24D] is [V], where the
    folded token [VD] would normalize to [VD]. *)
Theorem C7_suffix_not_folded :
  forall (self : Importer) (lr : bool) (l d x : string),
  all_in Upper l = true -> l <> "" ->
  all_in Digit d = true ->
  String.length d = 2%nat \/ String.length d = 3%nat ->
  all_in Upper x = true ->
  let r := parse_stripped self lr (l ++ d ++ x) in
  first_match patterns (l ++ d ++ x) = Some [l; d; x]
  /\ type_token [l; d; x] = Some l
  /\ type_code r = Some (normalize_type_code self l)
  /\ width r = Some (int d)
  /\ type_code (parse_item_code self "V24D") = Some "V"
  /\ normalize_type_code self "VD" = "VD".
Proof.
  intros self lr l d x Hl Nl Hd Ld Hx r.
  assert (Nd : d <> "") by (destruct d; [simpl in Ld; lia | discriminate]).
  pose proof (first_pattern_matches l d x Hl Nl Hd Nd Hx) as M.
  split; [exact M | split; [reflexivity |]].
  split; [| split; [| split; reflexivity]].
  - subst r. now apply parse_stripped_type with (groups := [l; d; x]).
  - subst r. unfold parse_stripped. rewrite M.
    assert (D : dims [l; d; x] = (Some (int d), None)).
    { unfold dims. destruct Ld as [-> | ->]; reflexivity. }
    rewrite D. cbv zeta.
    now destruct (infer_door_drawer_count self _ (l ++ d ++ x)).
Qed.

(** C7 at [B24FD]: the groups are [B], [24] and [FD], the token is [B]. *)
Lemma C7_suffix_not_folded_witness :
  first_match patterns "B24FD" = Some ["B"; "24"; "FD"]
  /\ type_token ["B"; "24"; "FD"] = Some "B"
  /\ type_code (parse_stripped (new_importer "" false) false "B24FD") = Some "B"
  /\ width (parse_stripped (new_importer "" false) false "B24FD") = Some 24.
Proof.
  destruct (C7_suffix_not_folded (new_importer "" false) false "B" "24" "FD")
    as (M & T & C & W & _); try reflexivity.
  - discriminate.
  - now left.
  - split; [exact M | split; [exact T | split; [exact C | exact W]]].
Defined.

(** *** Codes no pattern matches *)

Lemma first_match_none (ps : list regex) (s : string) :
  Forall (fun p => re_match p s = None) ps <-> first_match ps s = None.
Proof.
  induction ps as [|p ps IH]; simpl.
  - split; [reflexivity | constructor].
  - split.
    + intros H. inversion H as [|? ? Hp Hps]; subst.
      rewrite Hp. now apply IH.
    + destruct (re_match p s) eqn:E; [discriminate|].
      intros H. constructor; [exact E | now apply IH].
Qed.

Lemma infer_no_type (self : Importer) (item_code : string) :
  infer_door_drawer_count self None item_code = (1, 0).
Proof. reflexivity. Qed.

Lemma parse_stripped_unmatched (self : Importer) (lr : bool) (code : string) :
  unmatched code ->
  parse_stripped self lr code = mkResult None None None None lr 1 0.
Proof.
  intros H. apply first_match_none in H.
  unfold parse_stripped. rewrite H. reflexivity.
Qed.

(** C5, as the code has it.  When none of the patterns matches the code the
    orientation check has left, [parse_item_code] leaves [type_code] unset
    together with width, height and depth, and infers 1 door and no drawer;
    the default type [B] is only looked up afterwards, by
    [get_or_create_product]. *)
Theorem C5_unmatched_as_coded : forall (self : Importer) (c : string),
  unmatched (snd (strip_orientation c)) ->
  let r := parse_item_code self c in
  type_code r = None
  /\ width r = None /\ height r = None /\ depth r = None
  /\ door_count r = 1 /\ drawer_count r = 0
  /\ product_type_id self r = dict_get (cabinet_types_cache self) "B".
Proof.
  intros self c H r. subst r. unfold parse_item_code.
  destruct (strip_orientation c) as [lr code]; simpl in H.
  rewrite (parse_stripped_unmatched self lr code H).
  repeat split.
Qed.

(** C5 at [XYZ], a code without digits. *)
Lemma C5_unmatched_witness :
  let r := parse_item_code (new_importer "" false) "XYZ" in
  unmatched "XYZ" /\ type_code r = None /\ door_count r = 1.
Proof.
  assert (U : unmatched (snd (strip_orientation "XYZ"))).
  { apply first_match_none. reflexivity. }
  pose proof (C5_unmatched_as_coded (new_importer "" false) "XYZ" U) as P.
  cbv zeta in P. destruct P as (T & _ & _ & _ & D & _).
  split; [exact U | split; [exact T | exact D]].
Defined.

(** C5, as the specification words it, fails on the code: no pattern matches
    [XYZ], and the decoded record has no type at all, not the default. *)
Lemma C5_unmatched_counterexample :
  exists c, unmatched (snd (strip_orientation c))
            /\ type_code (parse_item_code (new_importer "" false) c) = None
            /\ type_code (parse_item_code (new_importer "" false) c) <> Some "B".
Proof.
  exists "XYZ". split; [|split].
  - apply first_match_none. reflexivity.
  - reflexivity.
  - discriminate.
Qed.

(** *** Width bounds *)

Lemma check_width_in_range (w : Z) : width_in_range (check_width w).
Proof.
  unfold check_width, width_in_range.
  destruct (w <? 6) eqn:Lo; destruct (w >? 96) eqn:Hi; simpl; lia.
Qed.

Lemma check_width_cases (w : Z) :
  check_width w = w \/ (~ width_in_range w /\ check_width w = 24).
Proof.
  unfold check_width, width_in_range.
  destruct (w <? 6) eqn:Lo; destruct (w >? 96) eqn:Hi; simpl;
    try (right; split; [lia | reflexivity]).
  now left.
Qed.

(** C1, as the code has it.  The range check is the one of
    [simple_import.py]: the width it writes for an item code lies in
    [6, 96], and it is the width read off the code unless that one is below
    6 or above 96, in which case it is the default 24.  For [B3] no width is
    read off the code: [simple_import.py] writes the default 24 and
    [parse_item_code] leaves the width unset. *)
Theorem C1_width_bound_as_coded : forall (self : Importer) (c : string),
  width_in_range (import_width c)
  /\ (import_width c = extracted_width c
      \/ (~ width_in_range (extracted_width c) /\ import_width c = 24))
  /\ import_width "B3" = 24
  /\ width (parse_item_code self "B3") = None.
Proof.
  intros self c. split; [|split; [|split]].
  - apply check_width_in_range.
  - apply check_width_cases.
  - reflexivity.
  - reflexivity.
Qed.

(** C1, as the specification words it, fails on [parse_item_code]: the
    record decoded from [B99] has width 99, outside [6, 96]. *)
Lemma C1_width_bound_counterexample :
  exists c w, width (parse_item_code (new_importer "" false) c) = Some w
              /\ ~ width_in_range w.
Proof.
  exists "B99", 99. split; [reflexivity|].
  unfold width_in_range. lia.
Qed.

(** *** Door and drawer counts *)

Lemma infer_base (self : Importer) (l d : string) :
  all_in Upper l = true -> all_in Digit d = true -> d <> "" ->
  infer_door_drawer_count self (Some "B") (l ++ d)
  = ((if int d <? 24 then 1 else 2), 0).
Proof.
  intros Hl Hd Nd. unfold infer_door_drawer_count.
  change (in_list (Some "B") ["2DB"; "3DB"; "4DB"; "5DB"]) with false.
  change (in_list (Some "B") ["B"; "BFD"]) with true. cbv iota.
  now rewrite (search_finds_digits l d Hl Hd Nd).
Qed.

(** C8 on the code.  For a base code made of letters and a four-digit
    token, the record has the first two digits as its width, while the door
    count is read off the whole digit run of the item code: [B1212] decodes
    to the base type with width 12, yet 2 doors are inferred (from 1212),
    not the 1 door of a width below 24. *)
Theorem C8_door_count_reads_digit_run :
  forall (self : Importer) (lr : bool) (l d : string),
  all_in Upper l = true -> l <> "" ->
  normalize_type_code self l = "B" ->
  all_in Digit d = true -> String.length d = 4%nat ->
  let r := parse_stripped self lr (l ++ d) in
  type_code r = Some "B"
  /\ width r = Some (int (take 2 d))
  /\ door_count r = (if int d <? 24 then 1 else 2)
  /\ drawer_count r = 0
  /\ parse_item_code self "B1212"
     = mkResult (Some 12) (Some 12) None (Some "B") false 2 0.
Proof.
  intros self lr l d Hl Nl HB Hd Ld r.
  assert (Nd : d <> "") by (destruct d; [simpl in Ld; lia | discriminate]).
  pose proof (first_pattern_matches l d "" Hl Nl Hd Nd eq_refl) as M.
  rewrite (append_empty d) in M.
  assert (D : dims [l; d; ""] = (Some (int (take 2 d)), Some (int (drop 2 d)))).
  { unfold dims. now rewrite Ld. }
  assert (R : r = mkResult (Some (int (take 2 d))) (Some (int (drop 2 d))) None
                           (Some "B") lr (if int d <? 24 then 1 else 2) 0).
  { subst r. unfold parse_stripped. rewrite M, D.
    change (type_token [l; d; ""]) with (Some l). cbv zeta iota beta.
    rewrite HB, (infer_base self l d Hl Hd Nd). reflexivity. }
  rewrite R. repeat split.
Qed.

(** C8 at [B1212]: width 12, 2 doors. *)
Lemma C8_door_count_witness :
  width (parse_stripped (new_importer "" false) false "B1212") = Some 12
  /\ door_count (parse_stripped (new_importer "" false) false "B1212") = 2.
Proof.
  destruct (C8_door_count_reads_digit_run (new_importer "" false) false "B" "1212")
    as (_ & W & D & _); try reflexivity.
  - discriminate.
  - split; [exact W | exact D].
Defined.

Lemma in_list_cases (tc : option string) (l : list string) :
  in_list tc l = true -> exists t, tc = Some t /\ In t l.
Proof.
  destruct tc as [t|]; simpl; [|discriminate].
  intros H. apply existsb_exists in H as (x & Hx & E).
  apply String.eqb_eq in E. subst x. now exists t.
Qed.

(** C10.  Whatever the type and the item code, the inferred counts are not
    negative and never both positive; the drawer count is the leading digit
    (2 to 5) for the types [2DB], [3DB], [4DB] and [5DB], which get no door,
    and 0 for every other type. *)
Theorem C10_door_drawer_invariant :
  forall (self : Importer) (tc : option string) (item_code : string),
  let doors := fst (infer_door_drawer_count self tc item_code) in
  let drawers := snd (infer_door_drawer_count self tc item_code) in
  0 <= doors /\ 0 <= drawers
  /\ ~ (0 < doors /\ 0 < drawers)
  /\ (if in_list tc ["2DB"; "3DB"; "4DB"; "5DB"]
      then doors = 0 /\ 2 <= drawers <= 5
      else drawers = 0 /\ doors <= 2).
Proof.
  intros self tc item_code. cbv zeta.
  unfold infer_door_drawer_count.
  destruct (in_list tc ["2DB"; "3DB"; "4DB"; "5DB"]) eqn:DB.
  - apply in_list_cases in DB as (t & -> & Ht). simpl in Ht.
    destruct Ht as [<- | [<- | [<- | [<- | []]]]]; vm_compute; intuition discriminate.
  - destruct (in_list tc ["B"; "BFD"]).
    + destruct (re_search digits_re item_code) as [groups|]; simpl.
      * destruct (int (nth 0 groups "") <? 24); simpl; lia.
      * lia.
    + destruct (in_list tc ["W"]); simpl; [lia|].
      destruct (in_list tc ["F"; "PNL"; "TK"; "D"]); simpl; lia.
Qed.

(** *** Determinism *)

(** C9.  The record decoded from an item code is a function of the code
    alone: two runs of [parse_item_code], on importers in any two states
    (connection settings, statistics, caches), return the same record, field
    by field. *)
Theorem C9_decode_deterministic :
  forall (self1 self2 : Importer) (c : string),
  let r1 := parse_item_code self1 c in
  let r2 := parse_item_code self2 c in
  r1 = r2
  /\ type_code r1 = type_code r2
  /\ width r1 = width r2 /\ height r1 = height r2 /\ depth r1 = depth r2
  /\ door_count r1 = door_count r2 /\ drawer_count r1 = drawer_count r2
  /\ is_left_right r1 = is_left_right r2.
Proof.
  intros self1 self2 c r1 r2.
  assert (E : r1 = r2).
  { subst r1 r2. unfold parse_item_code.
    destruct (strip_orientation c) as [lr code].
    unfold parse_stripped, normalize_type_code, infer_door_drawer_count.
    reflexivity. }
  rewrite E. repeat split.
Qed.

(** *** Soundness of the matcher *)

Lemma append_assoc (a b c : string) : (a ++ b) ++ c = a ++ b ++ c.
Proof. induction a as [|x a IH]; simpl; [reflexivity | now rewrite IH]. Qed.

Lemma take_drop (n : nat) (s : string) : take n s ++ drop n s = s.
Proof.
  revert s; induction n as [|n IH]; intros [|c s]; simpl; try reflexivity.
  now rewrite IH.
Qed.

Lemma length_append (a b : string) :
  String.length (a ++ b) = (String.length a + String.length b)%nat.
Proof. induction a as [|x a IH]; simpl; [reflexivity | now rewrite IH]. Qed.

Lemma all_in_append (k : cclass) (a b : string) :
  all_in k (a ++ b) = all_in k a && all_in k b.
Proof.
  induction a as [|x a IH]; simpl; [reflexivity|].
  now rewrite IH, andb_assoc.
Qed.

Lemma run_cap (k : cclass) (h : nat) (s : string) :
  (run k (Some h) s <= h)%nat.
Proof.
  revert s; induction h as [|h IH]; intros s.
  - destruct s; simpl; lia.
  - destruct s as [|c s]; simpl; [lia|].
    destruct (in_class k c); [|lia].
    specialize (IH s). simpl. lia.
Qed.

Lemma run_take (k : cclass) (hi : option nat) (s : string) (j : nat) :
  (j <= run k hi s)%nat ->
  all_in k (take j s) = true /\ String.length (take j s) = j.
Proof.
  revert hi s; induction j as [|j IH]; intros hi s Hj.
  - now destruct s.
  - destruct s as [|c s].
    + destruct hi as [[|h]|]; simpl in Hj; lia.
    + assert (Hc : in_class k c = true
                   /\ (j <= run k (option_map Nat.pred hi) s)%nat).
      { destruct hi as [[|h]|]; simpl in Hj |- *; try lia;
          destruct (in_class k c); try lia; split; trivial; lia. }
      destruct Hc as [Hc Hr]. destruct (IH _ _ Hr) as [Ha Hl].
      simpl. now rewrite Hc, Ha, Hl.
Qed.

Lemma try_down_some {A : Type} (n lo : nat) (f : nat -> option A) (v : A) :
  (lo <= n)%nat -> try_down n lo f = Some v ->
  exists j, (lo <= j <= n)%nat /\ f j = Some v.
Proof.
  induction n as [|n IH]; simpl; intros Hlo H.
  - destruct (f 0%nat) eqn:E; [|discriminate].
    exists 0%nat. split; [lia | congruence].
  - destruct (f (S n)) eqn:E.
    + exists (S n). split; [lia | congruence].
    + destruct (lo <=? n)%nat eqn:L; [|discriminate].
      apply Nat.leb_le in L. destruct (IH L H) as (j & Hj & Hf).
      exists j. split; [lia | exact Hf].
Qed.

(** Whatever [match_reps] returns comes from its continuation, called on
    a text the sequence can consume and on what is left. *)
Lemma match_reps_sound {A : Type} (rs : list rep) :
  forall (s got : string) (k : string -> string -> option A) (v : A),
  match_reps rs s got k = Some v ->
  exists t rest, s = t ++ rest /\ reps_match rs t /\ k (got ++ t) rest = Some v.
Proof.
  induction rs as [|r rs IH]; intros s got k v H.
  - simpl in H. exists "", s. rewrite append_empty.
    split; [reflexivity | split; [constructor | exact H]].
  - simpl in H.
    destruct (run (r_class r) (r_hi r) s <? r_lo r)%nat eqn:E; [discriminate|].
    apply Nat.ltb_ge in E.
    apply try_down_some in H as (j & Hj & H); [|exact E].
    apply IH in H as (u & rest & Hs & Hu & Hk).
    destruct (run_take (r_class r) (r_hi r) s j) as [Ha Hl]; [lia|].
    exists (take j s ++ u), rest. split; [|split].
    + rewrite append_assoc, <- Hs. symmetry. apply take_drop.
    + constructor; trivial.
      * rewrite Hl. lia.
      * intros h Hh. rewrite Hl. pose proof (run_cap (r_class r) h s) as C.
        rewrite Hh in Hj. lia.
    + now rewrite <- append_assoc.
Qed.

Lemma match_pieces_sound (ps : list piece) (eos : bool) :
  forall (s : string) (acc out : list string),
  match_pieces ps eos s acc = Some out ->
  exists t rest gs,
    s = t ++ rest /\ pieces_match ps t gs /\ out = (rev acc ++ gs)%list
    /\ (eos = true -> at_end rest = true).
Proof.
  induction ps as [|[b|b] ps IH]; intros s acc out H.
  - simpl in H. exists "", s, []. rewrite app_nil_r.
    destruct eos.
    + destruct (at_end s) eqn:E; [|discriminate].
      repeat split; [constructor | congruence].
    + repeat split; [constructor | congruence | discriminate].
  - simpl in H. apply match_reps_sound in H as (t & r1 & Hs & Ht & H).
    apply IH in H as (u & rest & gs & Hr & Hu & Ho & He).
    exists (t ++ u), rest, (t :: gs). subst s r1.
    rewrite append_assoc. repeat split; trivial.
    + now constructor.
    + rewrite Ho. simpl. now rewrite <- app_assoc.
  - simpl in H. apply match_reps_sound in H as (t & r1 & Hs & Ht & H).
    apply IH in H as (u & rest & gs & Hr & Hu & Ho & He).
    exists (t ++ u), rest, gs. subst s r1.
    rewrite append_assoc. repeat split; trivial.
    now constructor.
Qed.

(** [re.match] is sound: when it returns groups, the subject is a text the
    pieces of the pattern can consume, block by block within the bounds of
    each quantifier, with exactly those groups, followed by a remainder that
    is empty or a final newline when the pattern ends in [$]. *)
Lemma re_match_sound (r : regex) (s : string) (groups : list string) :
  re_match r s = Some groups ->
  exists t rest,
    s = t ++ rest /\ pieces_match (pieces r) t groups
    /\ (dollar r = true -> at_end rest = true).
Proof.
  intros H. unfold re_match in H.
  apply match_pieces_sound in H as (t & rest & gs & Hs & Hp & Ho & He).
  simpl in Ho. subst gs. now exists t, rest.
Qed.

Lemma reps_match_cons_inv (r : rep) (rs : list rep) (t : string) :
  reps_match (r :: rs) t ->
  exists a u, t = a ++ u /\ all_in (r_class r) a = true
              /\ (r_lo r <= String.length a)%nat
              /\ (forall h, r_hi r = Some h -> (String.length a <= h)%nat)
              /\ reps_match rs u.
Proof. intros H. inversion H; subst. now exists t0, u. Qed.

Lemma reps_match_one (r : rep) (t : string) :
  reps_match [r] t ->
  all_in (r_class r) t = true /\ (r_lo r <= String.length t)%nat
  /\ (forall h, r_hi r = Some h -> (String.length t <= h)%nat).
Proof.
  intros H. apply reps_match_cons_inv in H as (a & u & -> & Ha & Hlo & Hhi & Hu).
  inversion Hu; subst. now rewrite append_empty.
Qed.

Lemma pieces_match_group_inv (b : list rep) (ps : list piece) (t : string)
      (gs : list string) :
  pieces_match (Group b :: ps) t gs ->
  exists a u gs', t = a ++ u /\ gs = a :: gs'
                  /\ reps_match b a /\ pieces_match ps u gs'.
Proof. intros H. inversion H; subst. now exists t0, u, gs0. Qed.

Lemma pieces_match_nil_inv (t : string) (gs : list string) :
  pieces_match [] t gs -> t = "" /\ gs = [].
Proof. intros H. inversion H; subst. now split. Qed.

Lemma positive_length (s : string) : (1 <= String.length s)%nat -> s <> "".
Proof. destruct s; simpl; [lia | discriminate]. Qed.

(** The shapes of the patterns of [parse_item_code]. *)
Lemma first_pattern_shape (s : string) (groups : list string) :
  re_match (nth 0 patterns (Regex [] false)) s = Some groups ->
  exists l d x rest,
    groups = [l; d; x] /\ s = l ++ d ++ x ++ rest
    /\ all_in Upper l = true /\ l <> ""
    /\ all_in Digit d = true /\ d <> ""
    /\ all_in Upper x = true /\ at_end rest = true.
Proof.
  intros H. apply re_match_sound in H as (t & rest & Hs & Hp & He).
  cbn [nth patterns pieces dollar] in Hp, He.
  apply pieces_match_group_inv in Hp as (l & u1 & g1 & -> & -> & Hl & Hp).
  apply pieces_match_group_inv in Hp as (d & u2 & g2 & -> & -> & Hd & Hp).
  apply pieces_match_group_inv in Hp as (x & u3 & g3 & -> & -> & Hx & Hp).
  apply pieces_match_nil_inv in Hp as [-> ->].
  apply reps_match_one in Hl as (Hl & Nl & _).
  apply reps_match_one in Hd as (Hd & Nd & _).
  apply reps_match_one in Hx as (Hx & _ & _).
  exists l, d, x, rest. subst s.
  rewrite append_empty, !append_assoc.
  repeat split; auto using positive_length.
Qed.

Lemma second_pattern_shape (s : string) (groups : list string) :
  re_match (nth 1 patterns (Regex [] false)) s = Some groups ->
  exists l d1 d2 rest,
    groups = [l; d1; d2] /\ s = l ++ d1 ++ d2 ++ rest
    /\ all_in Upper l = true /\ l <> ""
    /\ all_in Digit d1 = true /\ String.length d1 = 2%nat
    /\ all_in Digit d2 = true /\ String.length d2 = 2%nat
    /\ at_end rest = true.
Proof.
  intros H. apply re_match_sound in H as (t & rest & Hs & Hp & He).
  cbn [nth patterns pieces dollar] in Hp, He.
  apply pieces_match_group_inv in Hp as (l & u1 & g1 & -> & -> & Hl & Hp).
  apply pieces_match_group_inv in Hp as (d1 & u2 & g2 & -> & -> & Hd1 & Hp).
  apply pieces_match_group_inv in Hp as (d2 & u3 & g3 & -> & -> & Hd2 & Hp).
  apply pieces_match_nil_inv in Hp as [-> ->].
  apply reps_match_one in Hl as (Hl & Nl & _).
  apply reps_match_one in Hd1 as (Hd1 & Lo1 & Hi1).
  apply reps_match_one in Hd2 as (Hd2 & Lo2 & Hi2).
  specialize (Hi1 2%nat eq_refl). specialize (Hi2 2%nat eq_refl).
  cbn [times r_lo] in Lo1, Lo2.
  exists l, d1, d2, rest. subst s.
  rewrite append_empty, !append_assoc.
  repeat split; auto using positive_length; lia.
Qed.

Lemma third_pattern_shape (s : string) (groups : list string) :
  re_match (nth 2 patterns (Regex [] false)) s = Some groups ->
  exists n l d rest,
    groups = [n ++ l; d] /\ s = n ++ l ++ d ++ rest
    /\ all_in Digit n = true /\ n <> ""
    /\ all_in Upper l = true /\ l <> ""
    /\ all_in Digit d = true /\ d <> ""
    /\ at_end rest = true.
Proof.
  intros H. apply re_match_sound in H as (t & rest & Hs & Hp & He).
  cbn [nth patterns pieces dollar] in Hp, He.
  apply pieces_match_group_inv in Hp as (nl & u1 & g1 & -> & -> & Hnl & Hp).
  apply pieces_match_group_inv in Hp as (d & u2 & g2 & -> & -> & Hd & Hp).
  apply pieces_match_nil_inv in Hp as [-> ->].
  apply reps_match_cons_inv in Hnl as (n & l & -> & Hn & Nn & _ & Hl).
  apply reps_match_one in Hl as (Hl & Nl & _).
  apply reps_match_one in Hd as (Hd & Nd & _).
  exists n, l, d, rest. subst s.
  rewrite append_empty, !append_assoc.
  repeat split; auto using positive_length.
Qed.

(** *** Which patterns decide *)

Lemma at_end_stops (e : string) :
  at_end e = true -> stops Upper e /\ stops Digit e.
Proof.
  destruct e as [|c [|c' e]]; simpl; intros H; try discriminate.
  - now split.
  - apply Ascii.eqb_eq in H. subst c. now split.
Qed.

Lemma upper_then_end_stops_digit (x e : string) :
  all_in Upper x = true -> at_end e = true -> stops Digit (x ++ e).
Proof.
  intros Hx He. destruct x as [|c x].
  - now apply at_end_stops.
  - simpl in *. apply andb_true_iff in Hx as [Hc _].
    now apply upper_not_digit.
Qed.

(** The first pattern on letters, digits and an optional letter suffix, up
    to a final newline. *)
Lemma first_pattern_complete (l d x e : string) :
  all_in Upper l = true -> l <> "" ->
  all_in Digit d = true -> d <> "" ->
  all_in Upper x = true -> at_end e = true ->
  re_match (nth 0 patterns (Regex [] false)) (l ++ d ++ x ++ e)
  = Some [l; d; x].
Proof.
  intros Hl Nl Hd Nd Hx He.
  unfold re_match. cbn [nth patterns pieces dollar match_pieces].
  assert (S1 : stops Upper (d ++ x ++ e)) by auto with blocks.
  assert (S2 : stops Digit (x ++ e)) by now apply upper_then_end_stops_digit.
  assert (S3 : stops Upper e) by now apply at_end_stops.
  rewrite (match_block Upper l (d ++ x ++ e) Hl S1 1 _ [l; d; x]);
    auto with blocks.
  rewrite (match_block Digit d (x ++ e) Hd S2 1 _ [l; d; x]); auto with blocks.
  rewrite (match_block Upper x e Hx S3 0 _ [l; d; x]); auto with blocks.
  now rewrite He.
Qed.

(** Whatever the second pattern matches, the first one matches too. *)
Lemma second_pattern_shadowed (s : string) (groups : list string) :
  re_match (nth 1 patterns (Regex [] false)) s = Some groups ->
  re_match (nth 0 patterns (Regex [] false)) s <> None.
Proof.
  intros H.
  apply second_pattern_shape in H
    as (l & d1 & d2 & rest & _ & -> & Hl & Nl & H1 & L1 & H2 & L2 & He).
  assert (E : l ++ d1 ++ d2 ++ rest = l ++ (d1 ++ d2) ++ "" ++ rest)
    by now rewrite append_assoc.
  rewrite E, first_pattern_complete; trivial; try discriminate.
  - now rewrite all_in_append, H1, H2.
  - destruct d1; [simpl in L1; lia | discriminate].
Qed.

(** X1.  The second entry of the [patterns] list (the one commented "wall
    cabinets") and the fourth (a repetition of the first) never decide a
    match: for every code, the loop over the four patterns returns what a
    loop over the first and the third alone returns. *)
Theorem X1_only_two_patterns_decide : forall s : string,
  first_match patterns s = first_match live_patterns s.
Proof.
  intros s. unfold live_patterns.
  change patterns with
    [nth 0 patterns (Regex [] false); nth 1 patterns (Regex [] false);
     nth 2 patterns (Regex [] false); nth 0 patterns (Regex [] false)] at 1.
  cbn [first_match].
  destruct (re_match (nth 0 patterns (Regex [] false)) s) eqn:P1;
    [reflexivity|].
  destruct (re_match (nth 1 patterns (Regex [] false)) s) eqn:P2.
  - exfalso. now apply (second_pattern_shadowed s l).
  - now destruct (re_match (nth 2 patterns (Regex [] false)) s).
Qed.

(** *** Decoded dimensions *)

Lemma int_acc_bounds (d : string) : forall acc : Z,
  all_in Digit d = true -> 0 <= acc ->
  acc * 10 ^ Z.of_nat (String.length d) <= int_acc acc d
  < (acc + 1) * 10 ^ Z.of_nat (String.length d).
Proof.
  induction d as [|c d IH]; intros acc Hd Hacc.
  - simpl. lia.
  - simpl in Hd. apply andb_true_iff in Hd as [Hc Hd].
    unfold in_class, is_digit in Hc. apply andb_true_iff in Hc as [Lo Hi].
    apply Nat.leb_le in Lo, Hi.
    change (int_acc acc (String c d))
      with (int_acc (10 * acc + (Z.of_nat (nat_of_ascii c) - 48)) d).
    set (v := Z.of_nat (nat_of_ascii c) - 48).
    assert (Hv : 0 <= v <= 9) by (unfold v; lia).
    specialize (IH (10 * acc + v) Hd ltac:(lia)).
    change (String.length (String c d)) with (S (String.length d)).
    rewrite Nat2Z.inj_succ, Z.pow_succ_r by lia.
    set (p := 10 ^ Z.of_nat (String.length d)) in *.
    assert (Hp : 0 < p) by (unfold p; apply Z.pow_pos_nonneg; lia).
    nia.
Qed.

Lemma int_bounds (d : string) :
  all_in Digit d = true ->
  0 <= int d < 10 ^ Z.of_nat (String.length d).
Proof.
  intros Hd. pose proof (int_acc_bounds d 0 Hd ltac:(lia)) as B.
  unfold int. lia.
Qed.

Lemma length_take (n : nat) (s : string) :
  (n <= String.length s)%nat -> String.length (take n s) = n.
Proof.
  revert s; induction n as [|n IH]; intros [|c s]; simpl; intros H;
    try reflexivity; try lia.
  rewrite IH; [reflexivity | lia].
Qed.

Lemma length_drop (n : nat) (s : string) :
  String.length (drop n s) = (String.length s - n)%nat.
Proof.
  revert s; induction n as [|n IH]; intros [|c s]; simpl; try reflexivity.
  apply IH.
Qed.

Lemma all_in_take_drop (k : cclass) (n : nat) (s : string) :
  all_in k s = true -> all_in k (take n s) = true /\ all_in k (drop n s) = true.
Proof.
  intros H. rewrite <- (take_drop n s), all_in_append in H.
  now apply andb_true_iff in H.
Qed.

(** What [dims] reads off a digit group. *)
Lemma dims_bounds (t d : string) (rest : list string) :
  all_in Digit d = true ->
  match dims (t :: d :: rest) with
  | (Some w, Some h) => 0 <= w <= 99 /\ 0 <= h <= 99
  | (Some w, None) => 0 <= w
  | (None, Some _) => False
  | (None, None) => True
  end.
Proof.
  intros Hd. unfold dims.
  destruct (String.length d =? 4)%nat eqn:L4.
  - apply Nat.eqb_eq in L4.
    destruct (all_in_take_drop Digit 2 d Hd) as [Ht Hr].
    pose proof (int_bounds _ Ht) as Bt. pose proof (int_bounds _ Hr) as Br.
    rewrite length_take in Bt by lia. rewrite length_drop, L4 in Br.
    change (10 ^ Z.of_nat 2) with 100 in Bt.
    change (10 ^ Z.of_nat (4 - 2)) with 100 in Br. lia.
  - destruct (2 <=? String.length d)%nat; [|trivial].
    pose proof (int_bounds _ Hd). lia.
Qed.

Lemma first_match_in (ps : list regex) (s : string) (groups : list string) :
  first_match ps s = Some groups ->
  exists p, In p ps /\ re_match p s = Some groups.
Proof.
  induction ps as [|p ps IH]; simpl; [discriminate|].
  destruct (re_match p s) eqn:E.
  - intros [= <-]. exists p. auto.
  - intros H. destruct (IH H) as (q & Hq & Hm). exists q. auto.
Qed.

(** Every match of [parse_item_code] has a token and a digit group. *)
Lemma groups_shape (s : string) (groups : list string) :
  first_match patterns s = Some groups ->
  exists t d rest, groups = t :: d :: rest
                   /\ all_in Digit d = true /\ d <> "".
Proof.
  intros H. apply first_match_in in H as (p & Hp & Hm).
  unfold patterns in Hp. simpl in Hp.
  destruct Hp as [<- | [<- | [<- | [<- | []]]]].
  - apply first_pattern_shape in Hm
      as (l & d & x & e & -> & _ & _ & _ & Hd & Nd & _).
    now exists l, d, [x].
  - apply second_pattern_shape in Hm
      as (l & d1 & d2 & e & -> & _ & _ & _ & Hd & Ld & _).
    exists l, d1, [d2]. repeat split; trivial.
    destruct d1; [simpl in Ld; lia | discriminate].
  - apply third_pattern_shape in Hm
      as (n & l & d & e & -> & _ & _ & _ & _ & _ & Hd & Nd & _).
    now exists (n ++ l), d, [].
  - apply first_pattern_shape in Hm
      as (l & d & x & e & -> & _ & _ & _ & Hd & Nd & _).
    now exists l, d, [x].
Qed.

Lemma normalize_canonical (self : Importer) (t : string) :
  In (normalize_type_code self t) canonical_codes.
Proof.
  unfold normalize_type_code.
  destruct (dict_get type_mapping t) as [v|] eqn:E.
  - unfold canonical_codes. apply in_map_iff. exists (t, v). split; trivial.
    revert E. generalize type_mapping. intros m.
    induction m as [|[k w] m IH]; simpl; [discriminate|].
    destruct (String.eqb_spec t k) as [->|].
    + intros [= ->]. now left.
    + intros H. right. now apply IH.
  - vm_compute. now left.
Qed.

(** X2.  Whatever the item code, the decoded record has no depth; a width,
    when set, is not negative and comes with a type that is one of the
    codes of the type mapping; a height is only set together with a width,
    and both then lie between 0 and 99. *)
Theorem X2_decoded_dimensions : forall (self : Importer) (c : string),
  let r := parse_item_code self c in
  depth r = None
  /\ match width r, height r with
     | Some w, Some h => 0 <= w <= 99 /\ 0 <= h <= 99
     | Some w, None => 0 <= w
     | None, Some _ => False
     | None, None => True
     end
  /\ match width r, type_code r with
     | Some _, Some t => In t canonical_codes
     | Some _, None => False
     | None, _ => True
     end.
Proof.
  intros self c r. subst r. unfold parse_item_code.
  destruct (strip_orientation c) as [lr code]. unfold parse_stripped.
  destruct (first_match patterns code) as [groups|] eqn:M.
  - destruct (groups_shape code groups M) as (t & d & rest & -> & Hd & Nd).
    pose proof (dims_bounds t d rest Hd) as B.
    destruct (dims (t :: d :: rest)) as [w h].
    destruct (infer_door_drawer_count self _ code) as [doors drawers].
    cbn [depth width height type_code]. split; [reflexivity|]. split.
    + exact B.
    + destruct w; [|trivial]. cbn [type_token length Nat.leb nth_error].
      apply normalize_canonical.
  - destruct (infer_door_drawer_count self None code) as [doors drawers].
    cbn. auto.
Qed.

(** X3.  [normalize_type_code] always returns one of the codes of the type
    mapping, and it returns such a code unchanged: normalizing twice is
    normalizing once. *)
Theorem X3_normalize_idempotent : forall (self : Importer) (t : string),
  In (normalize_type_code self t) canonical_codes
  /\ normalize_type_code self (normalize_type_code self t)
     = normalize_type_code self t.
Proof.
  intros self t. pose proof (normalize_canonical self t) as H.
  split; [exact H|].
  revert H. generalize (normalize_type_code self t). intros v H.
  vm_compute in H.
  repeat (destruct H as [<- | H]; [reflexivity|]). destruct H.
Qed.

(** *** The width read by [simple_import.py] *)

Lemma match_reps_greedy {A : Type} (r : rep) (rs : list rep) (s got : string)
      (cont : string -> string -> option A) (v : A) (n : nat) :
  run (r_class r) (r_hi r) s = n -> (r_lo r <= n)%nat ->
  match_reps rs (drop n s) (got ++ take n s) cont = Some v ->
  match_reps (r :: rs) s got cont = Some v.
Proof.
  intros Hn Hlo H. cbn [match_reps]. cbv zeta. rewrite Hn.
  destruct (n <? r_lo r)%nat eqn:E.
  - apply Nat.ltb_lt in E. lia.
  - now apply try_down_first.
Qed.

Lemma run_capped (k : cclass) (t r : string) :
  all_in k t = true -> run k (Some (String.length t)) (t ++ r) = String.length t.
Proof.
  induction t as [|c t IH]; intros H.
  - now destruct r.
  - simpl in H. apply andb_true_iff in H as [Hc Ht].
    simpl. rewrite Hc. now rewrite IH.
Qed.

Lemma re_search_hit (r : regex) (s : string) (groups : list string) :
  re_match r s = Some groups -> re_search r s = Some groups.
Proof. intros H. destruct s; simpl; now rewrite H. Qed.

(** The letters at the head of a code, then the two digits that follow. *)
Lemma letters_then_two_digits {A : Type} (l d rest got : string)
      (rs : list rep) (cont : string -> string -> option A) (v : A) :
  all_in Upper l = true -> l <> "" ->
  all_in Digit d = true -> String.length d = 2%nat ->
  match_reps rs rest ((got ++ l) ++ d) cont = Some v ->
  match_reps (plus Upper :: times 2 Digit :: rs) (l ++ d ++ rest) got cont
  = Some v.
Proof.
  intros Hl Nl Hd Ld H.
  assert (Nd : d <> "") by (destruct d; [simpl in Ld; lia | discriminate]).
  apply match_reps_greedy with (n := String.length l).
  - apply run_block; auto with blocks.
  - cbn. now apply nonempty_length.
  - rewrite take_block, drop_block.
    apply match_reps_greedy with (n := String.length d).
    + cbn [times r_class r_hi]. rewrite <- Ld. now apply run_capped.
    + cbn. lia.
    + now rewrite take_block, drop_block.
Qed.

Lemma simple_width_two_digits (l d rest : string) :
  all_in Upper l = true -> l <> "" ->
  all_in Digit d = true -> String.length d = 2%nat ->
  extracted_width (l ++ d ++ rest) = int d.
Proof.
  intros Hl Nl Hd Ld. unfold extracted_width.
  assert (M : re_match (Regex [Bare [plus Upper; times 2 Digit; star Upper]] false)
                       (l ++ d ++ rest) = Some []).
  { unfold re_match. cbn [pieces dollar match_pieces].
    apply letters_then_two_digits; trivial.
    apply match_reps_greedy with (n := run Upper None rest);
      [reflexivity | cbn; lia | reflexivity]. }
  rewrite M.
  assert (S : re_search (Regex [Bare [plus Upper]; Group [times 2 Digit]] false)
                        (l ++ d ++ rest) = Some [d]).
  { apply re_search_hit. unfold re_match. cbn [pieces dollar match_pieces].
    apply match_reps_greedy with (n := String.length l).
    - apply run_block; auto with blocks.
      apply digits_stop_upper; trivial.
      destruct d; [simpl in Ld; lia | discriminate].
    - cbn. now apply nonempty_length.
    - rewrite take_block, drop_block.
      change (match_reps [times 2 Digit] (d ++ rest) ""
                (fun got _ => Some (rev [got])) = Some [d]).
      apply match_reps_greedy with (n := String.length d).
      + cbn [times r_class r_hi]. rewrite <- Ld. now apply run_capped.
      + cbn. lia.
      + now rewrite take_block, drop_block. }
  now rewrite S.
Qed.

(** X4.  For a code that starts with letters followed by at least two
    digits, [simple_import.py] reads its width off the first two of these
    digits, whatever follows them: it agrees with [parse_item_code] on a
    two-digit token with an optional letter suffix, and reads a three-digit
    token short (10 for [B100]). *)
Theorem X4_simple_import_reads_two_digits :
  forall (self : Importer) (lr : bool) (l d rest : string),
  all_in Upper l = true -> l <> "" ->
  all_in Digit d = true -> String.length d = 2%nat ->
  extracted_width (l ++ d ++ rest) = int d
  /\ import_width (l ++ d ++ rest) = check_width (int d)
  /\ (all_in Upper rest = true ->
      width (parse_stripped self lr (l ++ d ++ rest))
      = Some (extracted_width (l ++ d ++ rest)))
  /\ extracted_width "B100" = 10
  /\ width (parse_stripped self lr "B100") = Some 100.
Proof.
  intros self lr l d rest Hl Nl Hd Ld.
  pose proof (simple_width_two_digits l d rest Hl Nl Hd Ld) as E.
  split; [exact E | split; [|split; [|split; reflexivity]]].
  - unfold import_width. now rewrite E.
  - intros Hx. rewrite E.
    assert (Nd : d <> "") by (destruct d; [simpl in Ld; lia | discriminate]).
    unfold parse_stripped.
    rewrite (first_pattern_matches l d rest Hl Nl Hd Nd Hx).
    assert (D : dims [l; d; rest] = (Some (int d), None)).
    { unfold dims. now rewrite Ld. }
    rewrite D. cbv zeta.
    now destruct (infer_door_drawer_count self _ (l ++ d ++ rest)).
Qed.

(** X4 at [B24FD]. *)
Lemma X4_simple_import_witness :
  extracted_width "B24FD" = 24
  /\ width (parse_stripped (new_importer "" false) false "B24FD") = Some 24.
Proof.
  destruct (X4_simple_import_reads_two_digits
              (new_importer "" false) false "B" "24" "FD")
    as (E & _ & W & _); try reflexivity.
  - discriminate.
  - split; [exact E | exact (W eq_refl)].
Defined.

(** *** Price strings *)

Lemma space_not_price (c : ascii) : is_space c = true -> price_char c = false.
Proof.
  destruct c as [[] [] [] [] [] [] [] []]; vm_compute;
    intros H; (reflexivity || discriminate H).
Qed.

Lemma filter_lstrip (s : string) : re_sub_price (lstrip s) = re_sub_price s.
Proof.
  unfold re_sub_price. induction s as [|c s IH]; simpl; [reflexivity|].
  destruct (is_space c) eqn:E; [|reflexivity].
  now rewrite (space_not_price c E).
Qed.

Lemma filter_rstrip (s : string) : re_sub_price (rstrip s) = re_sub_price s.
Proof.
  unfold re_sub_price. induction s as [|c s IH]; simpl; [reflexivity|].
  destruct (rstrip s) as [|a r] eqn:R.
  - simpl in IH. rewrite <- IH.
    destruct (is_space c) eqn:E.
    + now rewrite (space_not_price c E).
    + simpl. now destruct (price_char c).
  - simpl in *. now rewrite IH.
Qed.

Lemma filter_strip (s : string) : re_sub_price (strip s) = re_sub_price s.
Proof. unfold strip. now rewrite filter_lstrip, filter_rstrip. Qed.

Lemma filter_forall (f : ascii -> bool) (s : string) :
  forall_chars f (filter_chars f s) = true.
Proof.
  induction s as [|c s IH]; simpl; [reflexivity|].
  destruct (f c) eqn:E; simpl; [now rewrite E | exact IH].
Qed.

Lemma filter_id (f : ascii -> bool) (s : string) :
  forall_chars f s = true -> filter_chars f s = s.
Proof.
  induction s as [|c s IH]; simpl; [reflexivity|].
  intros H. apply andb_true_iff in H as [Hc Hs]. now rewrite Hc, IH.
Qed.

Lemma strip_price_chars (s : string) :
  forall_chars price_char s = true -> strip s = s.
Proof.
  intros H.
  assert (R : rstrip s = s).
  { induction s as [|c s IH]; simpl; [reflexivity|].
    simpl in H. apply andb_true_iff in H as [Hc Hs].
    rewrite (IH Hs). destruct s; [|reflexivity].
    destruct (is_space c) eqn:E; [|reflexivity].
    rewrite (space_not_price c E) in Hc. discriminate. }
  unfold strip. rewrite R. destruct s as [|c s]; [reflexivity|].
  simpl in *. apply andb_true_iff in H as [Hc _].
  destruct (is_space c) eqn:E; [|reflexivity].
  rewrite (space_not_price c E) in Hc. discriminate.
Qed.

(** The guards at the head of both [clean_price] only test whether a
    price character is left. *)
Lemma blank_price (p : string) :
  String.eqb p "" || String.eqb (strip p) "" = true -> re_sub_price p = "".
Proof.
  intros H. apply orb_true_iff in H as [H | H]; apply String.eqb_eq in H.
  - now subst.
  - rewrite <- filter_strip, H. reflexivity.
Qed.

Lemma kept_price (p : string) :
  let q := re_sub_price p in
  re_sub_price (strip q) = q
  /\ String.eqb q "" || String.eqb (strip q) "" = String.eqb q "".
Proof.
  intros q. subst q. unfold re_sub_price.
  rewrite (strip_price_chars _ (filter_forall price_char p)).
  split; [|apply orb_diag].
  apply filter_id, filter_forall.
Qed.

(** X5.  Both [clean_price] functions only look at the digits, dots and
    commas of the price text: every other character (currency signs,
    blanks, letters, a minus sign) is dropped before anything is decided,
    so a text and the text without these characters get the same price;
    [-12.50] is read as [12.50]. *)
Theorem X5_clean_price_reads_price_chars :
  forall (self : Importer) (p : string),
  ImporterPrices.clean_price self (Some p)
  = ImporterPrices.clean_price self (Some (re_sub_price p))
  /\ SimplePrices.clean_price (Some p)
     = SimplePrices.clean_price (Some (re_sub_price p))
  /\ ImporterPrices.clean_price self (Some "-12.50")
     = ImporterPrices.clean_price self (Some "12.50").
Proof.
  intros self p.
  destruct (kept_price p) as [K G]. cbv zeta in K, G.
  assert (B := blank_price p).
  unfold ImporterPrices.clean_price, SimplePrices.clean_price.
  rewrite K, G, filter_strip.
  destruct (String.eqb p "" || String.eqb (strip p) "").
  - rewrite (B eq_refl). repeat split.
  - destruct (String.eqb (re_sub_price p) ""); repeat split.
Qed.

Lemma span_digits_spec (s : string) :
  s = fst (span_digits s) ++ snd (span_digits s)
  /\ all_in Digit (fst (span_digits s)) = true.
Proof.
  induction s as [|c s [IH1 IH2]]; simpl; [now split|].
  destruct (is_digit c) eqn:E; [|now split].
  destruct (span_digits s) as [d r]. simpl in *.
  split; [now rewrite <- IH1 | now rewrite E, IH2].
Qed.

Lemma decimal_not_negative (s : string) (dc : Decimal) :
  decimal_of_string s = Some dc -> 0 <= coefficient dc /\ exponent dc <= 0.
Proof.
  unfold decimal_of_string.
  destruct (span_digits_spec s) as [_ Hi].
  destruct (span_digits s) as [i r]. simpl in Hi.
  destruct r as [|c r'].
  - destruct (String.eqb i ""); [discriminate|].
    intros [= <-]. simpl. pose proof (int_bounds i Hi). lia.
  - destruct (Ascii.eqb c "."); [|discriminate].
    destruct (span_digits_spec r') as [_ Hf].
    destruct (span_digits r') as [f r'']. simpl in Hf.
    destruct (String.eqb r'' "" && negb (String.eqb (i ++ f) ""));
      [|discriminate].
    intros [= <-]. simpl.
    assert (H : all_in Digit (i ++ f) = true)
      by now rewrite all_in_append, Hi, Hf.
    pose proof (int_bounds _ H). lia.
Qed.

Lemma importer_price_not_negative (self : Importer) (price_str : option string) (dc : Decimal) :
  ImporterPrices.clean_price self price_str = Some dc ->
  0 <= coefficient dc /\ exponent dc <= 0.
Proof.
  destruct price_str as [p|]; unfold ImporterPrices.clean_price;
    [|discriminate].
  destruct (String.eqb p "" || String.eqb (strip p) ""); [discriminate|].
  cbv zeta.
  destruct (String.eqb (re_sub_price (strip p)) ""); [discriminate|].
  apply decimal_not_negative.
Qed.

(** X6.  A price returned by either [clean_price] is never negative and
    never has a positive exponent: its coefficient is at least 0 and its
    exponent at most 0, whatever the text. *)
Theorem X6_clean_price_not_negative :
  forall (self : Importer) (price_str : option string) (dc : Decimal),
  ImporterPrices.clean_price self price_str = Some dc
  \/ SimplePrices.clean_price price_str = Some dc ->
  0 <= coefficient dc /\ exponent dc <= 0.
Proof.
  intros self [p|] dc [H | H];
    unfold ImporterPrices.clean_price, SimplePrices.clean_price in H;
    try discriminate.
  - destruct (String.eqb p "" || String.eqb (strip p) ""); [discriminate|].
    cbv zeta in H.
    destruct (String.eqb (re_sub_price (strip p)) ""); [discriminate|].
    now apply decimal_not_negative in H.
  - destruct (String.eqb p "" || String.eqb (strip p) ""); [discriminate|].
    cbv zeta in H.
    destruct (String.eqb (re_sub_price (strip p)) ""); [discriminate|].
    now apply decimal_not_negative in H.
Qed.

(** X6 at [-$5.00]: the sign is lost, the price is 5.00. *)
Lemma X6_clean_price_witness :
  ImporterPrices.clean_price (new_importer "" false) (Some "-$5.00")
  = Some (mkDecimal 500 (-2))
  /\ 0 <= 500 /\ -2 <= 0.
Proof.
  split; [reflexivity|].
  exact (X6_clean_price_not_negative (new_importer "" false) (Some "-$5.00")
           (mkDecimal 500 (-2)) (or_introl eq_refl)).
Defined.

Lemma digit_char_facts (c : ascii) :
  is_digit c = true ->
  Ascii.eqb c "," = false /\ Ascii.eqb c "." = false
  /\ price_char c = true.
Proof.
  destruct c as [[] [] [] [] [] [] [] []]; vm_compute;
    intros H; (discriminate H || now repeat split).
Qed.

Section DigitStrings.

Variable d : string.
Hypothesis digits : all_in Digit d = true.

Lemma digits_price_chars (r : string) :
  forall_chars price_char (d ++ r) = forall_chars price_char r.
Proof.
  induction d as [|c d' IH]; simpl in *; [reflexivity|].
  apply andb_true_iff in digits as [Hc Hd].
  destruct (digit_char_facts c Hc) as (_ & _ & ->). now apply IH.
Qed.

Lemma digits_has_comma (r : string) : has_char "," (d ++ r) = has_char "," r.
Proof.
  induction d as [|c d' IH]; simpl in *; [reflexivity|].
  apply andb_true_iff in digits as [Hc Hd].
  destruct (digit_char_facts c Hc) as (-> & _ & _). now apply IH.
Qed.

Lemma digits_has_dot (r : string) : has_char "." (d ++ r) = has_char "." r.
Proof.
  induction d as [|c d' IH]; simpl in *; [reflexivity|].
  apply andb_true_iff in digits as [Hc Hd].
  destruct (digit_char_facts c Hc) as (_ & -> & _). now apply IH.
Qed.

Lemma digits_count_comma (r : string) :
  count_char "," (d ++ r) = count_char "," r.
Proof.
  induction d as [|c d' IH]; simpl in *; [reflexivity|].
  apply andb_true_iff in digits as [Hc Hd].
  destruct (digit_char_facts c Hc) as (-> & _ & _). now apply IH.
Qed.

Lemma digits_second_part (r : string) :
  second_part "," (d ++ r) = second_part "," r.
Proof.
  induction d as [|c d' IH]; simpl in *; [reflexivity|].
  apply andb_true_iff in digits as [Hc Hd].
  destruct (digit_char_facts c Hc) as (-> & _ & _). now apply IH.
Qed.

Lemma digits_until_comma : until_char "," d = d.
Proof.
  induction d as [|c d' IH]; simpl in *; [reflexivity|].
  apply andb_true_iff in digits as [Hc Hd].
  destruct (digit_char_facts c Hc) as (-> & _ & _). now rewrite IH.
Qed.

Lemma digits_replace_comma (x : ascii) (r : string) :
  replace_char "," x (d ++ r) = d ++ replace_char "," x r.
Proof.
  induction d as [|c d' IH]; simpl in *; [reflexivity|].
  apply andb_true_iff in digits as [Hc Hd].
  destruct (digit_char_facts c Hc) as (-> & _ & _). now rewrite IH.
Qed.

Lemma digits_remove_comma (r : string) :
  remove_char "," (d ++ r) = d ++ remove_char "," r.
Proof.
  unfold remove_char.
  induction d as [|c d' IH]; simpl in *; [reflexivity|].
  apply andb_true_iff in digits as [Hc Hd].
  destruct (digit_char_facts c Hc) as (-> & _ & _). simpl. now rewrite IH.
Qed.

Lemma digits_span (r : string) :
  stops Digit r -> span_digits (d ++ r) = (d, r).
Proof.
  intros Hr. induction d as [|c d' IH];
    cbn [append span_digits all_in in_class] in *.
  - destruct r as [|c r]; [reflexivity|].
    cbn [stops in_class span_digits] in *. now rewrite Hr.
  - apply andb_true_iff in digits as [Hc Hd]. rewrite Hc. now rewrite IH.
Qed.

End DigitStrings.

Lemma digits_only (d : string) :
  all_in Digit d = true ->
  forall_chars price_char d = true /\ has_char "," d = false
  /\ has_char "." d = false /\ count_char "," d = 0%nat
  /\ remove_char "," d = d /\ replace_char "," "." d = d
  /\ span_digits d = (d, "").
Proof.
  intros H.
  pose proof (digits_price_chars d H "") as A.
  pose proof (digits_has_comma d H "") as B.
  pose proof (digits_has_dot d H "") as C.
  pose proof (digits_count_comma d H "") as D.
  pose proof (digits_remove_comma d H "") as E.
  pose proof (digits_replace_comma d H "." "") as F.
  pose proof (digits_span d H "" I) as G.
  change (remove_char "," "") with "" in E.
  change (replace_char "," "." "") with "" in F.
  rewrite ?append_empty in A, B, C, D, E, F, G. now repeat split.
Qed.

Lemma decimal_of_digits (d : string) :
  all_in Digit d = true -> d <> "" ->
  decimal_of_string d = Some (mkDecimal (int d) 0).
Proof.
  intros H N. unfold decimal_of_string.
  destruct (digits_only d H) as (_ & _ & _ & _ & _ & _ & ->).
  apply String.eqb_neq in N. now rewrite N.
Qed.

Lemma decimal_of_point (a b : string) :
  all_in Digit a = true -> all_in Digit b = true -> a ++ b <> "" ->
  decimal_of_string (a ++ "." ++ b)
  = Some (mkDecimal (int (a ++ b)) (- Z.of_nat (String.length b))).
Proof.
  intros Ha Hb N. unfold decimal_of_string.
  rewrite (digits_span a Ha ("." ++ b)) by reflexivity.
  cbn [append Ascii.eqb Bool.eqb]. cbv iota.
  destruct (digits_only b Hb) as (_ & _ & _ & _ & _ & _ & ->).
  apply String.eqb_neq in N. now rewrite N.
Qed.

Lemma not_empty_comma (a b : string) : String.eqb (a ++ "," ++ b) "" = false.
Proof. now destruct a. Qed.

(** What both [clean_price] do up to the comma handling, on digits with one
    comma among them. *)
Lemma one_comma_text (a b : string) :
  all_in Digit a = true -> all_in Digit b = true ->
  let p := a ++ "," ++ b in
  strip p = p /\ re_sub_price p = p
  /\ has_char "," p = true /\ has_char "." p = false
  /\ count_char "," p = 1%nat /\ second_part "," p = b
  /\ replace_char "," "." p = a ++ "." ++ b
  /\ remove_char "," p = a ++ b.
Proof.
  intros Ha Hb p. subst p.
  destruct (digits_only b Hb) as (Fb & Cb & Db & Nb & Rb & Pb & _).
  assert (F : forall_chars price_char (a ++ "," ++ b) = true).
  { rewrite (digits_price_chars a Ha). simpl. exact Fb. }
  split; [now apply strip_price_chars|].
  split; [now apply filter_id|].
  rewrite (digits_has_comma a Ha), (digits_has_dot a Ha),
    (digits_count_comma a Ha), (digits_second_part a Ha),
    (digits_replace_comma a Ha), (digits_remove_comma a Ha).
  cbn [append has_char count_char second_part replace_char Ascii.eqb Bool.eqb
       orb].
  rewrite Db, Nb, Pb, (digits_until_comma b Hb).
  repeat split. unfold remove_char in *. simpl. now rewrite Rb.
Qed.

(** X7.  On digits with a single comma among them (and no dot), the
    importer reads the comma as a decimal point when at most two digits
    follow it and as a thousands separator otherwise, so [12,5] is 12.5 and
    [1,234] is 1234; [simple_import.py] always drops the comma, so [12,5]
    is 125 there. *)
Theorem X7_single_comma :
  forall (self : Importer) (a b : string),
  all_in Digit a = true -> all_in Digit b = true -> a ++ b <> "" ->
  ImporterPrices.clean_price self (Some (a ++ "," ++ b))
  = Some (mkDecimal (int (a ++ b))
                    (if (String.length b <=? 2)%nat
                     then - Z.of_nat (String.length b) else 0))
  /\ SimplePrices.clean_price (Some (a ++ "," ++ b))
     = Some (mkDecimal (int (a ++ b)) 0).
Proof.
  intros self a b Ha Hb N.
  destruct (one_comma_text a b Ha Hb) as (S & K & C & D & O & P & R & M).
  cbv zeta in S, K, C, D, O, P, R, M.
  assert (Hab : all_in Digit (a ++ b) = true)
    by now rewrite all_in_append, Ha, Hb.
  unfold ImporterPrices.clean_price, SimplePrices.clean_price.
  rewrite S, K, not_empty_comma, C, D, O, P, R, M. cbn [orb andb Nat.eqb].
  cbv zeta. split.
  - destruct (String.length b <=? 2)%nat.
    + now apply decimal_of_point.
    + now apply decimal_of_digits.
  - now apply decimal_of_digits.
Qed.

(** X7 at [12,5] and [1,234]. *)
Lemma X7_single_comma_witness :
  ImporterPrices.clean_price (new_importer "" false) (Some "12,5")
  = Some (mkDecimal 125 (-1))
  /\ SimplePrices.clean_price (Some "12,5") = Some (mkDecimal 125 0)
  /\ ImporterPrices.clean_price (new_importer "" false) (Some "1,234")
     = Some (mkDecimal 1234 0).
Proof.
  destruct (X7_single_comma (new_importer "" false) "12" "5")
    as [A B]; try reflexivity; try discriminate.
  destruct (X7_single_comma (new_importer "" false) "1" "234")
    as [C _]; try reflexivity; try discriminate.
  split; [exact A | split; [exact B | exact C]].
Defined.

Lemma remove_absent (c : ascii) (s : string) :
  has_char c s = false -> remove_char c s = s.
Proof.
  unfold remove_char. induction s as [|a s IH]; simpl; [reflexivity|].
  intros H. apply orb_false_iff in H as [Ha Hs]. now rewrite Ha, IH.
Qed.

(** X8.  The two [clean_price] functions agree on every price text that has
    no comma, and on every one that has a dot: they can only differ on a
    text with commas and no dot. *)
Theorem X8_clean_price_agree :
  forall (self : Importer) (p : string),
  has_char "," (re_sub_price p) = false
  \/ has_char "." (re_sub_price p) = true ->
  ImporterPrices.clean_price self (Some p) = SimplePrices.clean_price (Some p).
Proof.
  intros self p H.
  unfold ImporterPrices.clean_price, SimplePrices.clean_price.
  rewrite filter_strip.
  destruct (String.eqb p "" || String.eqb (strip p) ""); [reflexivity|].
  cbv zeta. destruct (String.eqb (re_sub_price p) ""); [reflexivity|].
  destruct (has_char "," (re_sub_price p)) eqn:C.
  - destruct H as [H | H]; [discriminate|]. now rewrite H.
  - cbn [andb]. now rewrite remove_absent.
Qed.

(** X8 at [$1,234.56]. *)
Lemma X8_clean_price_agree_witness :
  ImporterPrices.clean_price (new_importer "" false) (Some "$1,234.56")
  = SimplePrices.clean_price (Some "$1,234.56")
  /\ SimplePrices.clean_price (Some "$1,234.56") = Some (mkDecimal 123456 (-2)).
Proof.
  split; [|reflexivity].
  apply (X8_clean_price_agree (new_importer "" false) "$1,234.56").
  now right.
Defined.

(** *** Rows: what [process_row] does to the database and the statistics *)

Section RowProofs.

Variable DB : Type.
Variable query : DB -> Stmt -> DB * Reply.
Variable upper : string -> string.

Lemma evolves_refl (w : World DB) : evolves w w.
Proof.
  constructor.
  - now destruct w as [[] ? ?].
  - now split.
  - repeat split; lia.
  - exists []. rewrite app_nil_r. repeat split; [constructor|].
    unfold inserts. simpl. lia.
Qed.

Lemma inserts_app (a b : list Stmt) : inserts (a ++ b) = inserts a + inserts b.
Proof. unfold inserts. rewrite filter_app, length_app. lia. Qed.

Lemma evolves_trans (w1 w2 w3 : World DB) :
  evolves w1 w2 -> evolves w2 w3 -> evolves w1 w3.
Proof.
  intros [S1 [R1 D1] G1 (t1 & T1 & A1 & C1)] [S2 [R2 D2] G2 (t2 & T2 & A2 & C2)].
  constructor.
  - rewrite S2, S1. reflexivity.
  - split; congruence.
  - repeat split; lia.
  - exists (t1 ++ t2)%list. split; [|split].
    + now rewrite T2, T1, app_assoc.
    + apply Forall_app. split; [exact A1|].
      rewrite S1 in A2. exact A2.
    + rewrite inserts_app. lia.
Qed.

Lemma steady_ret {A : Type} (a : A) : steady (ret DB a).
Proof. intros w. apply evolves_refl. Qed.

Lemma steady_raise {A : Type} : steady (@raise DB A).
Proof. intros w. apply evolves_refl. Qed.

Lemma steady_bind {A B : Type} (m : M DB A) (f : A -> M DB B) :
  steady m -> (forall a, steady (f a)) -> steady (bind DB m f).
Proof.
  intros Hm Hf w. unfold bind. specialize (Hm w).
  destruct (m w) as [[a|] w1]; simpl in *; [|exact Hm].
  apply evolves_trans with w1; [exact Hm | apply Hf].
Qed.

(** A statement that writes nothing. *)
Lemma steady_select (s : Stmt) :
  is_insert s = false -> steady (execute DB query s).
Proof.
  intros Hs w. unfold execute.
  destruct (query (w_db DB w) s) as [db' r]. simpl. constructor; simpl.
  - now destruct (w_self DB w).
  - now split.
  - repeat split; lia.
  - exists [s]. repeat split.
    + constructor; [|constructor]. split; [trivial|].
      destruct s; try discriminate; exact I.
    + unfold inserts. simpl. rewrite Hs. simpl. lia.
Qed.

(** An INSERT outside a dry run, counted as created or as an error. *)
Lemma steady_insert_returning (s : Importer -> Stmt)
      (created : Stats -> Stats) (dummy : Value) :
  (forall self, is_insert (s self) = true) ->
  (forall self, dry_run self = false -> allowed self (s self)) ->
  created = products_created_incr \/ created = variants_created_incr ->
  steady (bind DB (get_self DB) (fun self =>
            if dry_run self then ret DB dummy
            else bind DB (execute DB query (s self)) (fun r =>
                   match r with
                   | Row v => bind DB (bump DB created) (fun _ => ret DB v)
                   | _ => bind DB (bump DB errors_incr) (fun _ => ret DB VNone)
                   end))).
Proof.
  intros Hi Hs Hc w. unfold bind, get_self, execute, bump, ret. cbn.
  destruct (dry_run (w_self DB w)) eqn:Dry; [apply evolves_refl|].
  specialize (Hs (w_self DB w) Dry). specialize (Hi (w_self DB w)).
  destruct (query (w_db DB w) (s (w_self DB w))) as [db' r].
  destruct r; destruct Hc as [-> | ->];
    (constructor; cbn;
     [ reflexivity | now split | repeat split; lia
     | exists [s (w_self DB w)]; repeat split;
       [ constructor; [exact Hs | constructor]
       | unfold counted, inserts; cbn; rewrite Hi; cbn; lia ] ]).
Qed.

Lemma parse_item_code_any_self (self self' : Importer) (c : string) :
  parse_item_code self c = parse_item_code self' c.
Proof.
  unfold parse_item_code. destruct (strip_orientation c) as [lr code].
  reflexivity.
Qed.

Lemma steady_get_or_create_product (self0 : Importer)
      (item_code description : string) :
  item_code <> "" ->
  steady (get_or_create_product DB query item_code description
            (parse_item_code self0 item_code)).
Proof.
  intros Ne. unfold get_or_create_product. apply steady_bind.
  - now apply steady_select.
  - intros [| |v]; [apply steady_raise | | apply steady_ret].
    set (parsed := parse_item_code self0 item_code).
    apply (steady_insert_returning
             (fun self => InsertProduct item_code description
                            (product_type_id self parsed) description
                            (width parsed) (height parsed)
                            (depth parsed) (door_count parsed)
                            (drawer_count parsed)
                            (is_left_right parsed))
             products_created_incr (VInt 999999)); [trivial | | now left].
    intros self Dry. split; [congruence|]. cbv zeta.
    rewrite (parse_item_code_any_self self self0 item_code). fold parsed.
    now repeat split.
Qed.

Lemma steady_get_or_create_variant (product_id : Value) (color_option_id : Z)
      (item_code color_name : string) :
  steady (get_or_create_variant DB query upper product_id color_option_id
                                item_code color_name).
Proof.
  unfold get_or_create_variant. cbv zeta. apply steady_bind.
  - now apply steady_select.
  - intros [| |v]; [apply steady_raise | | apply steady_ret].
    apply (steady_insert_returning
             (fun _ => InsertVariant product_id color_option_id
                         (item_code ++ "-"
                          ++ upper (replace_char " " "_" color_name)))
             variants_created_incr
             (VStr "00000000-0000-0000-0000-000000000000"));
      [trivial | | now right].
    intros self Dry. split; [congruence | exact I].
Qed.

Lemma steady_create_pricing_record (variant_id : Value)
      (prices : list (string * Decimal)) (entry : string * string) :
  positive_prices prices -> In entry material_mapping ->
  steady (create_pricing_record DB query variant_id prices entry).
Proof.
  intros Pos Hin w. destruct entry as [csv_col db_code].
  unfold create_pricing_record.
  destruct (dict_get prices csv_col) as [price|] eqn:P;
    [|apply evolves_refl].
  unfold bind, get_self, execute, bump, ret. cbn.
  destruct (dict_get (box_materials_cache (w_self DB w)) db_code)
    as [material_id|] eqn:Mat; [|apply evolves_refl].
  destruct (material_id =? 0) eqn:Z0; [apply evolves_refl|].
  destruct (dry_run (w_self DB w)) eqn:Dry; [apply evolves_refl|].
  apply Z.eqb_neq in Z0.
  destruct (query (w_db DB w) (InsertPricing variant_id material_id price))
    as [db' r].
  assert (Al : allowed (w_self DB w) (InsertPricing variant_id material_id price)).
  { split; [congruence|]. split; [now apply (Pos csv_col) | split; trivial].
    exists db_code. split; trivial.
    apply in_map_iff. now exists (csv_col, db_code). }
  destruct r; cbn;
    (constructor; cbn;
     [ reflexivity | now split | repeat split; lia
     | exists [InsertPricing variant_id material_id price]; repeat split;
       [ constructor; [exact Al | constructor]
       | unfold counted, inserts; cbn; lia ] ]).
Qed.

Lemma steady_for_each {A : Type} (f : A -> M DB unit) (l : list A) :
  (forall a, In a l -> steady (f a)) -> steady (for_each DB f l).
Proof.
  induction l as [|a l IH]; intros H; simpl.
  - apply steady_ret.
  - apply steady_bind; [apply H; now left|].
    intros _. apply IH. intros b Hb. apply H. now right.
Qed.

Lemma steady_create_pricing_records (variant_id : Value)
      (prices : list (string * Decimal)) :
  positive_prices prices ->
  steady (create_pricing_records DB query variant_id prices).
Proof.
  intros Pos. unfold create_pricing_records. apply steady_for_each.
  intros entry Hin. now apply steady_create_pricing_record.
Qed.

Lemma read_prices_positive (self : Importer) (row : CsvRow)
      (cols : list string) :
  positive_prices (read_prices self row cols).
Proof.
  unfold positive_prices.
  induction cols as [|col cols IH]; intros c price; simpl; [discriminate|].
  destruct (row col) as [text|]; [|apply IH].
  destruct (ImporterPrices.clean_price self text) as [pr|] eqn:E; [|apply IH].
  destruct (negb (coefficient pr =? 0)) eqn:T; [|apply IH].
  simpl. destruct (String.eqb c col); [|apply IH].
  intros [= <-].
  destruct (importer_price_not_negative self text pr E) as [Nn _].
  apply negb_true_iff in T. apply Z.eqb_neq in T. lia.
Qed.

Lemma steady_cell (row : CsvRow) (key : string) : steady (cell DB row key).
Proof.
  unfold cell. destruct (row key) as [[v|]|];
    [apply steady_ret | apply steady_raise | apply steady_ret].
Qed.

Lemma steady_get_self : steady (get_self DB).
Proof. intros w. apply evolves_refl. Qed.

Lemma steady_process_row (row : CsvRow) :
  steady (process_row DB query upper row).
Proof.
  unfold process_row.
  apply steady_bind; [apply steady_cell | intros color_option].
  apply steady_bind; [apply steady_cell | intros item_code].
  apply steady_bind; [apply steady_cell | intros description].
  destruct (String.eqb item_code "" || String.eqb color_option "") eqn:Blank;
    [apply steady_ret|].
  apply orb_false_iff in Blank as [Ne _]. apply String.eqb_neq in Ne.
  apply steady_bind; [apply steady_get_self | intros self].
  destruct (dict_get (color_options_cache self) color_option)
    as [color_option_id|]; [|apply steady_ret].
  destruct (color_option_id =? 0); [apply steady_ret|]. cbv zeta.
  apply steady_bind;
    [now apply steady_get_or_create_product | intros product_id].
  destruct (negb (is_true product_id)); [apply steady_ret|].
  apply steady_bind; [apply steady_get_or_create_variant | intros variant_id].
  destruct (negb (is_true variant_id)); [apply steady_ret|].
  apply steady_bind; [apply steady_get_self | intros self'].
  destruct (read_prices self' row price_columns) as [|e prices] eqn:P;
    [apply steady_ret|].
  apply steady_create_pricing_records. rewrite <- P.
  apply read_prices_positive.
Qed.

Lemma no_insert_counted (self : Importer) (tr : list Stmt) :
  dry_run self = true -> Forall (allowed self) tr ->
  Forall (fun s => is_insert s = false) tr /\ inserts tr = 0.
Proof.
  intros Dry H. induction H as [|s tr [Hs _] _ [IH1 IH2]].
  - split; [constructor | reflexivity].
  - specialize (Hs Dry). split; [now constructor|].
    unfold inserts in *. simpl. now rewrite Hs.
Qed.

End RowProofs.

Lemma process_row_dry :
  forall (DB : Type) (query : DB -> Stmt -> DB * Reply)
         (upper : string -> string) (row : CsvRow) (w : World DB),
  dry_run (w_self DB w) = true ->
  let w' := snd (process_row DB query upper row w) in
  w_self DB w' = w_self DB w
  /\ exists tr, w_trace DB w' = (w_trace DB w ++ tr)%list
                /\ Forall (fun s => is_insert s = false) tr.
Proof.
  intros DB query upper row w Dry w'.
  destruct (steady_process_row DB query upper row w)
    as [S [R D] (G1 & G2 & G3 & G4) (tr & T & A & C)].
  fold w' in S, R, D, G1, G2, G3, G4, T, C.
  destruct (no_insert_counted (w_self DB w) tr Dry A) as [NI Z0].
  split; [|now exists tr].
  rewrite S. unfold counted in C. rewrite Z0 in C.
  destruct (w_self DB w) as [url dry st c1 c2 c3].
  destruct st as [a b c d e f]. destruct (stats (w_self DB w')) as [a' b' c' d' e' f'].
  unfold set_stats. cbn in *. subst.
  repeat f_equal; lia.
Qed.

(** X9.  In a dry run, [process_row] writes nothing: whatever the row and
    whatever the database answers, the statements it executes are SELECTs
    only, and the importer, its statistics included, is left as it was. *)
Theorem X9_dry_run_writes_nothing :
  forall (DB : Type) (query : DB -> Stmt -> DB * Reply)
         (upper : string -> string) (row : CsvRow) (w : World DB),
  dry_run (w_self DB w) = true ->
  let w' := snd (process_row DB query upper row w) in
  w_self DB w' = w_self DB w
  /\ exists tr, w_trace DB w' = (w_trace DB w ++ tr)%list
                /\ Forall (fun s => is_insert s = false) tr.
Proof.
  intros DB query upper row w Dry. cbv zeta.
  split.
  - apply (process_row_dry DB query upper row w Dry).
  - destruct (process_row_dry DB query upper row w Dry) as [_ H]. exact H.
Qed.

(** X9 on a dry run over the sample row: two SELECTs, nothing else. *)
Lemma X9_dry_run_witness :
  let w := mkWorld unit (sample_importer true) tt [] in
  let w' := snd (process_row unit empty_db (fun s => s) sample_row w) in
  w_self unit w' = sample_importer true
  /\ exists tr, w_trace unit w' = tr
                /\ Forall (fun s => is_insert s = false) tr.
Proof.
  cbv zeta.
  destruct (X9_dry_run_writes_nothing unit empty_db (fun s => s) sample_row
              (mkWorld unit (sample_importer true) tt []) eq_refl)
    as [S (tr & T & F)].
  split; [exact S | exists tr; split; [exact T | exact F]].
Defined.

(** X10.  [process_row] keeps the books: it never touches [total_rows] nor
    [duplicates_skipped], it never decreases a counter, and every INSERT it
    executes is counted exactly once, as a product, a variant or a pricing
    record created, or as an error. *)
Theorem X10_inserts_are_counted :
  forall (DB : Type) (query : DB -> Stmt -> DB * Reply)
         (upper : string -> string) (row : CsvRow) (w : World DB),
  let st := stats (w_self DB w) in
  let w' := snd (process_row DB query upper row w) in
  let st' := stats (w_self DB w') in
  total_rows st' = total_rows st
  /\ duplicates_skipped st' = duplicates_skipped st
  /\ products_created st <= products_created st'
  /\ variants_created st <= variants_created st'
  /\ pricing_records_created st <= pricing_records_created st'
  /\ errors st <= errors st'
  /\ exists tr, w_trace DB w' = (w_trace DB w ++ tr)%list
                /\ counted st' = counted st + inserts tr.
Proof.
  intros DB query upper row w st w' st'.
  destruct (steady_process_row DB query upper row w)
    as [S [R D] (G1 & G2 & G3 & G4) (tr & T & A & C)].
  repeat split; trivial. now exists tr.
Qed.

(** X11.  A price [process_row] writes is positive and goes to a material
    of the cache: every [InsertPricing] it executes carries a price with a
    positive coefficient and the non-zero id the cache holds for one of the
    four material codes; a zero price is never written. *)
Theorem X11_prices_written :
  forall (DB : Type) (query : DB -> Stmt -> DB * Reply)
         (upper : string -> string) (row : CsvRow) (w : World DB),
  let w' := snd (process_row DB query upper row w) in
  exists tr,
    w_trace DB w' = (w_trace DB w ++ tr)%list
    /\ forall variant_id material_id price,
         In (InsertPricing variant_id material_id price) tr ->
         0 < coefficient price /\ material_id <> 0
         /\ exists code,
              In code ["particleboard"; "plywood"; "uv_birch"; "white_plywood"]
              /\ dict_get (box_materials_cache (w_self DB w)) code
                 = Some material_id.
Proof.
  intros DB query upper row w w'.
  destruct (steady_process_row DB query upper row w)
    as [_ _ _ (tr & T & A & _)].
  exists tr. split; [exact T|].
  intros v m price Hin.
  rewrite Forall_forall in A. destruct (A _ Hin) as [_ H]. exact H.
Qed.

(** X11 on the sample row: the price 100.00 is written for plywood, the
    price 0.00 of the other column is not. *)
Lemma X11_prices_written_witness :
  w_trace unit
    (snd (process_row unit empty_db (fun s => s) sample_row
            (mkWorld unit (sample_importer false) tt [])))
  = [ SelectProduct "B24FD";
      InsertProduct "B24FD" "Base full door" (Some 3) "Base full door"
                    (Some 24) None None 2 0 false;
      SelectVariant (VInt 5) 1;
      InsertVariant (VInt 5) 1 "B24FD-White";
      InsertPricing (VStr "v-5") 7 (mkDecimal 10000 (-2)) ]
  /\ 0 < coefficient (mkDecimal 10000 (-2)).
Proof.
  split; [vm_compute; reflexivity|].
  destruct (X11_prices_written unit empty_db (fun s => s) sample_row
              (mkWorld unit (sample_importer false) tt []))
    as (tr & T & H).
  apply (H (VStr "v-5") 7 (mkDecimal 10000 (-2))).
  vm_compute in T. simpl in T. subst tr. simpl. auto 10.
Defined.



(** X13.  A row with a missing cell (a line shorter than the header, where
    the reader fills [None]) in the colour, item code or description column
    makes [process_row] raise before any statement, provided the cells read
    before it are present: the world is left as it was. *)
Theorem X13_short_row_raises :
  forall (DB : Type) (query : DB -> Stmt -> DB * Reply)
         (upper : string -> string) (row : CsvRow) (w : World DB),
  row "Color Option" = Some None
  \/ (row "Color Option" <> Some None /\ row "Item Code" = Some None)
  \/ (row "Color Option" <> Some None /\ row "Item Code" <> Some None
      /\ row "Description" = Some None) ->
  process_row DB query upper row w = (None, w).
Proof.
  intros DB query upper row w H.
  unfold process_row, bind, cell, ret, raise.
  destruct H as [H | [[H1 H] | (H1 & H2 & H)]].
  - now rewrite H.
  - rewrite H. now destruct (row "Color Option") as [[v|]|].
  - rewrite H.
    destruct (row "Color Option") as [[v|]|]; try contradiction;
      destruct (row "Item Code") as [[v'|]|]; try contradiction; reflexivity.
Qed.

(** X13 on a row that only has its colour. *)
Lemma X13_short_row_witness :
  process_row unit empty_db (fun s => s)
              (fun key => if String.eqb key "Color Option"
                          then Some (Some "White") else Some None)
              (mkWorld unit (sample_importer false) tt [])
  = (None, mkWorld unit (sample_importer false) tt []).
Proof.
  apply (X13_short_row_raises unit empty_db (fun s => s)).
  right. left. split; [discriminate | reflexivity].
Defined.

(** *** The row loop *)

Section LoopProofs.

Variable DB : Type.
Variable conn : DB -> Action -> DB * Reply.
Variable upper : string -> string.

Let query : DB -> Stmt -> DB * Reply := fun db st => conn db (Exec st).







End LoopProofs.



Section LoopFlag.

Variable DB : Type.
Variable conn : DB -> Action -> DB * Reply.
Variable upper : string -> string.

Lemma act_flag (a : Action) (s : Session DB) :
  dry_run (s_self DB (snd (act DB conn a s))) = dry_run (s_self DB s).
Proof. unfold act. now destruct (conn (s_db DB s) a). Qed.

Lemma on_cursor_flag (row : CsvRow) (s : Session DB) :
  dry_run (s_self DB (snd (on_cursor DB
     (process_row DB (fun db st => conn db (Exec st)) upper row) s)))
  = dry_run (s_self DB s).
Proof.
  unfold on_cursor.
  pose proof (steady_process_row DB (fun db st => conn db (Exec st)) upper row
                (mkWorld DB (s_self DB s) (s_db DB s) [])) as [S _ _ _].
  destruct (process_row DB (fun db st => conn db (Exec st)) upper row
              (mkWorld DB (s_self DB s) (s_db DB s) [])) as [r w].
  cbn in *. now rewrite S.
Qed.

Lemma import_row_flag (row : CsvRow) (n : nat) (s : Session DB) :
  dry_run (s_self DB (snd (import_row DB conn upper row n s)))
  = dry_run (s_self DB s).
Proof.
  unfold import_row, row_body.
  pose proof (on_cursor_flag row (count DB total_rows_incr s)) as H.
  destruct (on_cursor DB _ (count DB total_rows_incr s)) as [[u|] s1];
    cbn [snd] in H.
  - destruct (negb (dry_run (s_self DB s1)) && (n mod 100 =? 0)%nat).
    + pose proof (act_flag Commit s1) as A.
      destruct (act DB conn Commit s1) as [[u'|] s2]; cbn [snd] in A |- *.
      * now rewrite A, H.
      * destruct (negb (dry_run (s_self DB (count DB errors_incr s2)))).
        -- rewrite act_flag. cbn. now rewrite A, H.
        -- cbn. now rewrite A, H.
    + cbn. exact H.
  - destruct (negb (dry_run (s_self DB (count DB errors_incr s1)))).
    + rewrite act_flag. cbn. exact H.
    + cbn. exact H.
Qed.

Lemma import_rows_flag (rows : list CsvRow) :
  forall (n : nat) (s : Session DB),
  dry_run (s_self DB (snd (import_rows DB conn upper rows n s)))
  = dry_run (s_self DB s).
Proof.
  induction rows as [|row rows IH]; intros n s; [reflexivity|].
  cbn [import_rows].
  pose proof (import_row_flag row n s) as H.
  destruct (import_row DB conn upper row n s) as [[u|] s1]; cbn [snd] in H.
  - now rewrite IH.
  - exact H.
Qed.

End LoopFlag.

(** X15.  Outside a dry run, the import ends on the connection with a
    commit when it returns and with a rollback when it raises, whatever the
    rows and whatever the database answers. *)
Theorem X15_import_ends_with_commit_or_rollback :
  forall (DB : Type) (conn : DB -> Action -> DB * Reply)
         (upper : string -> string) (rows : list CsvRow) (s : Session DB),
  dry_run (s_self DB s) = false ->
  exists tr,
    s_trace DB (snd (import_csv_rows DB conn upper rows s))
    = (tr ++ [match fst (import_csv_rows DB conn upper rows s) with
              | Some _ => Commit
              | None => Rollback
              end])%list.
Proof.
  intros DB conn upper rows s Dry. unfold import_csv_rows.
  pose proof (import_rows_flag DB conn upper rows 1 s) as F.
  rewrite Dry in F.
  destruct (import_rows DB conn upper rows 1 s) as [[u|] s1]; cbn [snd] in F.
  - rewrite F. cbn [negb]. unfold act.
    destruct (conn (s_db DB s1) Commit) as [db' [| |v]]; cbn.
    + rewrite F. cbn. destruct (conn db' Rollback) as [db'' r]. cbn.
      now exists (s_trace DB s1 ++ [Commit])%list.
    + now exists (s_trace DB s1).
    + now exists (s_trace DB s1).
  - rewrite F. cbn [negb fst snd]. unfold act.
    destruct (conn (s_db DB s1) Rollback) as [db' r]. cbn.
    now exists (s_trace DB s1).
Qed.

(** X15 on a database that refuses every commit: the import raises and
    ends with a rollback. *)
Lemma X15_import_ends_witness :
  exists tr,
    s_trace unit
      (snd (import_csv_rows unit
              (fun db a => (db, match a with Commit => Raised | _ => NoRow end))
              (fun t => t) [sample_row]
              (mkSession unit (sample_importer false) tt [])))
    = (tr ++ [Rollback])%list.
Proof.
  exact (X15_import_ends_with_commit_or_rollback unit
           (fun db a => (db, match a with Commit => Raised | _ => NoRow end))
           (fun t => t) [sample_row]
           (mkSession unit (sample_importer false) tt []) eq_refl).
Defined.

Lemma depth_unset (self : Importer) (c : string) :
  depth (parse_item_code self c) = None.
Proof.
  unfold parse_item_code. destruct (strip_orientation c) as [lr code].
  unfold parse_stripped.
  destruct (first_match patterns code) as [groups|].
  - destruct (dims groups) as [w h].
    now destruct (infer_door_drawer_count self _ code).
  - now destruct (infer_door_drawer_count self None code).
Qed.

(** X16.  A product [process_row] inserts carries the decode of its item
    code: the item code is not blank, the name is the description, the
    width, height, door count, drawer count and orientation flag are those
    [parse_item_code] returns for that item code, the depth is NULL, and the
    type id is the one [get_or_create_product] looks up for the decoded
    type (the cache entry of the type, else of [B]). *)
Theorem X16_products_written :
  forall (DB : Type) (query : DB -> Stmt -> DB * Reply)
         (upper : string -> string) (row : CsvRow) (w : World DB),
  let w' := snd (process_row DB query upper row w) in
  exists tr,
    w_trace DB w' = (w_trace DB w ++ tr)%list
    /\ forall item_code name type_id description wd h d doors drawers lr,
         In (InsertProduct item_code name type_id description wd h d
                           doors drawers lr) tr ->
         let r := parse_item_code (w_self DB w) item_code in
         item_code <> "" /\ name = description
         /\ type_id = product_type_id (w_self DB w) r
         /\ wd = width r /\ h = height r /\ d = None
         /\ doors = door_count r /\ drawers = drawer_count r
         /\ lr = is_left_right r.
Proof.
  intros DB query upper row w w'.
  destruct (steady_process_row DB query upper row w)
    as [_ _ _ (tr & T & A & _)].
  exists tr. split; [exact T|].
  intros item_code name type_id description wd h d doors drawers lr Hin r.
  rewrite Forall_forall in A. destruct (A _ Hin) as [_ H]. cbv zeta in H.
  destruct H as (H1 & H2 & H3 & H4 & H5 & H6 & H7 & H8 & H9).
  repeat split; trivial.
  rewrite H6. apply depth_unset.
Qed.

(** X16 on the sample row: the product of [B24FD], 24 wide, 2 doors, with
    the type id of [B]. *)
Lemma X16_products_written_witness :
  let r := parse_item_code (sample_importer false) "B24FD" in
  Some 3 = product_type_id (sample_importer false) r
  /\ Some 24 = width r /\ 2 = door_count r.
Proof.
  destruct (X16_products_written unit empty_db (fun s => s) sample_row
              (mkWorld unit (sample_importer false) tt []))
    as (tr & T & H).
  destruct (H "B24FD" "Base full door" (Some 3) "Base full door"
              (Some 24) None None 2 0 false)
    as (_ & _ & H3 & H4 & _ & _ & H7 & _).
  - vm_compute in T. simpl in T. subst tr. simpl. auto.
  - cbv zeta. split; [exact H3 | split; [exact H4 | exact H7]].
Defined.
